(** * xbrl-extract: a shallow embedding of the instance parser, the schema
    deriver, the row assembler and the two orchestrators

    The development follows the Python sources file by file:
    - [instance.py]: [parse], [XbrlDb], [Period], [Axis], [Entity],
      [Context], [Fact];
    - [xbrl.py]: [DTYPE_MAP], [extract], [process_instance],
      [get_fact_table], [construct_dataframe], [get_columns_from_table],
      [get_cols_from_line_item].

    Python exceptions are values of [exn] carried by the [result] monad,
    dictionaries are insertion-ordered association lists, and the three
    libraries the code leans on (lxml, pydantic, pandas) are modelled just
    as far as the code uses them. *)

From Stdlib Require Import ZArith Lia Ascii String.
From stdpp Require Import strings base option list.

Set Warnings "-register-all".

(** ** Exceptions and the result monad *)

Inductive exn : Type :=
  | KeyError (key : string)
  | KeyErrorNone
  | IndexError
  | AttributeError
  | ValueError
  | NameError (var : string)
  | SyntaxError
  | ValidationError
  | ZeroDivisionError
  | OSError.

Inductive result (A : Type) : Type :=
  | Ok (a : A)
  | Raise (e : exn).

Arguments Ok {A} a.
Arguments Raise {A} e.

#[export] Instance result_ret : MRet result := fun _ a => Ok a.
#[export] Instance result_bind : MBind result := fun _ _ f m =>
  match m with
  | Ok a => f a
  | Raise e => Raise e
  end.

Definition is_Ok {A} (r : result A) : Prop := exists a, r = Ok a.
Definition is_Raise {A} (r : result A) : Prop := exists e, r = Raise e.

(** ** Python strings *)

Module Str.

Definition startswith (s p : string) : bool := String.prefix p s.

Definition endswith (s p : string) : bool :=
  String.prefix (String.rev p) (String.rev s).

Fixpoint contains_char (c : ascii) (s : string) : bool :=
  match s with
  | EmptyString => false
  | String a s' => if decide (a = c) then true else contains_char c s'
  end.

(** [s.split(sep)] for a one-character separator. *)
Fixpoint split (sep : ascii) (s : string) : list string :=
  match s with
  | EmptyString => [EmptyString]
  | String a s' =>
      if decide (a = sep) then EmptyString :: split sep s'
      else match split sep s' with
           | [] => [String a EmptyString]
           | w :: ws => String a w :: ws
           end
  end.

(** [s.split(sep, 1)]: the text before and after the first separator. *)
Fixpoint split_once (sep : ascii) (s : string) : string * string :=
  match s with
  | EmptyString => (EmptyString, EmptyString)
  | String a s' =>
      if decide (a = sep) then (EmptyString, s')
      else let '(l, r) := split_once sep s' in (String a l, r)
  end.

(** [s.replace(old, new)] for a non-empty [old]: occurrences are replaced
    from the left and do not overlap.  [skip] counts the characters of an
    occurrence that are still to be passed over. *)
Fixpoint replace_from (old new : string) (skip : nat) (s : string) : string :=
  match s with
  | EmptyString => EmptyString
  | String a s' =>
      match skip with
      | S k => replace_from old new k s'
      | O =>
          if String.prefix old s
          then new +:+ replace_from old new (String.length old - 1) s'
          else String a (replace_from old new 0 s')
      end
  end.

Definition replace (s old new : string) : string :=
  replace_from old new 0 s.

End Str.

(** ** Python dictionaries

    A [dict] keeps its items in insertion order; assigning to a key that is
    already present replaces the value where the key stands. *)

Abbreviation dict V := (list (string * V)).

Section Dict.
Context {V : Type}.

Fixpoint dict_get (d : dict V) (k : string) : option V :=
  match d with
  | [] => None
  | (k', v) :: d' => if decide (k' = k) then Some v else dict_get d' k
  end.

Fixpoint dict_set (d : dict V) (k : string) (v : V) : dict V :=
  match d with
  | [] => [(k, v)]
  | (k', v') :: d' =>
      if decide (k' = k) then (k', v) :: d' else (k', v') :: dict_set d' k v
  end.

Definition dict_keys (d : dict V) : list string := d.*1.

(** [k in d] *)
Definition dict_contains (k : string) (d : dict V) : bool :=
  bool_decide (k ∈ dict_keys d).

(** [d[k]] *)
Definition dict_getitem (d : dict V) (k : string) : result V :=
  match dict_get d k with
  | Some v => Ok v
  | None => Raise (KeyError k)
  end.

(** [d.update(items)], also the meaning of [{**d, **items}] *)
Definition dict_update (d : dict V) (items : list (string * V)) : dict V :=
  foldl (fun acc kv => dict_set acc kv.1 kv.2) d items.

(** A dictionary display or comprehension, items given left to right. *)
Definition dict_of_items (items : list (string * V)) : dict V :=
  dict_update [] items.

End Dict.


(** ** lxml elements

    An element as [lxml.etree] presents it: the tag in Clark notation
    ([{uri}local]), the prefix it was written with, the namespace map in
    scope, attributes, the text before the first child, and the child
    elements in document order. *)

Definition nsmap_t : Type := list (option string * string).

Inductive Element : Type :=
  mkElement {
    tag : string;
    prefix : option string;
    nsmap : nsmap_t;
    attrib : dict string;
    text : option string;
    getchildren : list Element
  }.

Module etree.

Fixpoint ns_get (m : nsmap_t) (p : option string) : option string :=
  match m with
  | [] => None
  | (p', uri) :: m' => if decide (p' = p) then Some uri else ns_get m' p
  end.

Definition truthy (o : option string) : option string :=
  match o with
  | Some EmptyString => None
  | _ => o
  end.

(** [namespaces.get(None) or namespaces.get('')] *)
Definition default_namespace (namespaces : nsmap_t) : option string :=
  match truthy (ns_get namespaces None) with
  | Some uri => Some uri
  | None => truthy (ns_get namespaces (Some ""))
  end.

(** A map that gives the default namespace twice, under [None] and under
    the empty prefix, with two values, is refused. *)
Definition ambiguous (namespaces : nsmap_t) : bool :=
  match ns_get namespaces None, ns_get namespaces (Some "") with
  | Some a, Some b => negb (bool_decide (a = b))
  | _, _ => false
  end.

(** The tag a one-step ElementPath expression selects: a name in Clark
    notation stands for itself, a prefixed name is looked up in the
    namespace map (an unknown prefix is a [SyntaxError]), an unprefixed one
    takes the default namespace when the map has one. *)
Definition resolve (path : string) (namespaces : nsmap_t) : result string :=
  if Str.startswith path "{" then Ok path
  else if Str.contains_char ":" path then
    let '(p, local) := Str.split_once ":" path in
    match ns_get namespaces (Some p) with
    | Some uri => Ok ("{" +:+ uri +:+ "}" +:+ local)
    | None => Raise SyntaxError
    end
  else
    match default_namespace namespaces with
    | Some uri => Ok ("{" +:+ uri +:+ "}" +:+ path)
    | None => Ok path
    end.

(** [{uri}*] selects every element of the namespace; any other pattern
    selects the elements with exactly that tag. *)
Definition tag_matches (pattern : string) (t : string) : bool :=
  if Str.endswith pattern "}*"
  then Str.startswith t (String.substring 0 (String.length pattern - 1) pattern)
  else bool_decide (pattern = t).

(** [elem.findall(path, namespaces)], for a path of one step *)
Definition findall (elem : Element) (path : string) (namespaces : nsmap_t)
  : result (list Element) :=
  if ambiguous namespaces then Raise ValueError
  else
    pattern ← resolve path namespaces;
    Ok (filter (fun c => tag_matches pattern (tag c) = true) (getchildren elem)).

(** [elem.find(path, namespaces)]: the first match, or [None] *)
Definition find (elem : Element) (path : string) (namespaces : nsmap_t)
  : result (option Element) :=
  found ← findall elem path namespaces;
  Ok (head found).

End etree.

(** Calling a method on what [find] returned: [None] has no attributes. *)
Definition not_None {A} (o : option A) : result A :=
  match o with
  | Some a => Ok a
  | None => Raise AttributeError
  end.

(** ** The environment of a run

    [etree_parse] stands for [etree.parse(path).getroot()] on the files of
    the run (unreadable or malformed files raise), [validate_date] for
    pydantic's coercion of a string into a [date] field. *)

Record date : Type := mkDate { year : Z; month : Z; day : Z }.

#[export] Instance date_eq_dec : EqDecision date.
Proof. solve_decision. Defined.

Record Env : Type :=
  mkEnv {
    etree_parse : string -> result Element;
    validate_date : string -> option date
  }.

(** pydantic's check of a required field of type [str] *)
Definition required_str (o : option string) : result string :=
  match o with
  | Some s => Ok s
  | None => Raise ValidationError
  end.

(** pydantic's check of a required field of type [date] *)
Definition required_date (env : Env) (o : option string) : result date :=
  match o with
  | Some s =>
      match validate_date env s with
      | Some d => Ok d
      | None => Raise ValidationError
      end
  | None => Raise ValidationError
  end.

(** pydantic's check of a field of type [Optional[date]] *)
Definition optional_date (env : Env) (o : option string) : result (option date) :=
  match o with
  | Some s =>
      match validate_date env s with
      | Some d => Ok (Some d)
      | None => Raise ValidationError
      end
  | None => Ok None
  end.

(** ** instance.py: the data model *)

Definition TAXONOMY_PREFIX : string := "{http://www.w3.org/1999/xlink}href".

Module Period.

Record t : Type := mk { instant : bool; start_date : option date; end_date : date }.

#[global] Instance eq_dec : EqDecision t.
Proof. solve_decision. Defined.

Definition from_xml (env : Env) (elem : Element) : result t :=
  found ← etree.find elem "instant" (nsmap elem);
  match found with
  | Some inst =>
      e ← required_date env (text inst);
      Ok {| instant := true; start_date := None; end_date := e |}
  | None =>
      s_elem ← etree.find elem "startDate" (nsmap elem) ≫= not_None;
      e_elem ← etree.find elem "endDate" (nsmap elem) ≫= not_None;
      s ← optional_date env (text s_elem);
      e ← required_date env (text e_elem);
      Ok {| instant := false; start_date := s; end_date := e |}
  end.

End Period.

Inductive DimensionType : Type := EXPLICIT | TYPED.

#[export] Instance DimensionType_eq_dec : EqDecision DimensionType.
Proof. solve_decision. Defined.

Module Axis.

Record t : Type := mk { name : string; value : string; dimension_type : DimensionType }.

#[global] Instance eq_dec : EqDecision t.
Proof. solve_decision. Defined.

(** The [name] validator: [name.split(":")[1] if ":" in name else name] *)
Definition strip_prefix (name : string) : string :=
  if Str.contains_char ":" name
  then default name (Str.split ":" name !! 1%nat)
  else name.

(** [None] is what the method returns for an element that is neither an
    explicit nor a typed member. *)
Definition from_xml (elem : Element) : result (option t) :=
  if Str.endswith (tag elem) "explicitMember" then
    n ← dict_getitem (attrib elem) "dimension";
    v ← required_str (text elem);
    Ok (Some {| name := strip_prefix n; value := v; dimension_type := EXPLICIT |})
  else if Str.endswith (tag elem) "typedMember" then
    dim ← match getchildren elem with
          | d :: _ => Ok d
          | [] => Raise IndexError
          end;
    n ← dict_getitem (attrib elem) "dimension";
    v ← required_str (text dim);
    Ok (Some {| name := strip_prefix n; value := v; dimension_type := TYPED |})
  else Ok None.

End Axis.

(** [for x in xs: f(x)], collecting, stopping at the first exception *)
Fixpoint mapM {A B} (f : A -> result B) (xs : list A) : result (list B) :=
  match xs with
  | [] => Ok []
  | x :: xs' => y ← f x; ys ← mapM f xs'; Ok (y :: ys)
  end.

Module Entity.

Record t : Type := mk { identifier : string; dimensions : list Axis.t }.

#[global] Instance eq_dec : EqDecision t.
Proof. solve_decision. Defined.

(** pydantic's check of [dimensions: List[Axis]]: no item may be [None] *)
Definition required_axis (o : option Axis.t) : result Axis.t :=
  match o with
  | Some a => Ok a
  | None => Raise ValidationError
  end.

Definition from_xml (elem : Element) : result t :=
  segment ← etree.find elem "segment" (nsmap elem);
  dims ← match segment with
         | Some seg => etree.findall seg "xbrldi:*" (nsmap seg)
         | None => Ok []
         end;
  ident ← etree.find elem "identifier" (nsmap elem) ≫= not_None;
  axes ← mapM Axis.from_xml dims;
  i ← required_str (text ident);
  ds ← mapM required_axis axes;
  Ok {| identifier := i; dimensions := ds |}.

(** [dim.name not in axes] decides the loop; the lengths are compared
    first. *)
Definition check_dimensions (self : t) (axes : list string) : bool :=
  if negb (length (dimensions self) =? length axes)%nat then false
  else forallb (fun dim => bool_decide (Axis.name dim ∈ axes)) (dimensions self).

End Entity.

(** A cell of a row: [None], a string, an integer or a date. *)
Inductive value : Type :=
  | VNone
  | VStr (s : string)
  | VInt (z : Z)
  | VDate (d : date).

#[export] Instance value_eq_dec : EqDecision value.
Proof. solve_decision. Defined.

Definition of_opt {A} (inj : A -> value) (o : option A) : value :=
  match o with
  | Some a => inj a
  | None => VNone
  end.

Module Context.

Record t : Type := mk { c_id : string; entity : Entity.t; period : Period.t }.

#[global] Instance eq_dec : EqDecision t.
Proof. solve_decision. Defined.

Definition from_xml (env : Env) (elem : Element) : result t :=
  i ← dict_getitem (attrib elem) "id";
  e_elem ← etree.find elem "entity" (nsmap elem) ≫= not_None;
  e ← Entity.from_xml e_elem;
  p_elem ← etree.find elem "period" (nsmap elem) ≫= not_None;
  p ← Period.from_xml env p_elem;
  Ok {| c_id := i; entity := e; period := p |}.

Definition check_dimensions (self : t) (axes : list string) : bool :=
  Entity.check_dimensions (entity self) axes.

(** [filing_name] receives whatever the caller passes; [construct_dataframe]
    passes its [filing_id], an integer or [None]. *)
Definition get_context_ids (self : t) (filing_name : option Z) : dict value :=
  let axes_dict :=
    dict_of_items ((fun axis => (Axis.name axis, VStr (Axis.value axis)))
                     <$> Entity.dimensions (entity self)) in
  let date_dict :=
    if Period.instant (period self)
    then [("date", VDate (Period.end_date (period self)))]
    else [("start_date", of_opt VDate (Period.start_date (period self)));
          ("end_date", VDate (Period.end_date (period self)))] in
  dict_of_items
    ([("context_id", VStr (c_id self));
      ("entity_id", VStr (Entity.identifier (entity self)));
      ("filing_name", of_opt VInt filing_name)]
     ++ date_dict ++ axes_dict).

End Context.

Module Fact.

Record t : Type := mk { name : string; c_id : string; value : option string }.

#[global] Instance eq_dec : EqDecision t.
Proof. solve_decision. Defined.

Definition from_xml (elem : Element) : result t :=
  uri ← match etree.ns_get (nsmap elem) (prefix elem) with
        | Some uri => Ok uri
        | None => match prefix elem with
                  | Some p => Raise (KeyError p)
                  | None => Raise KeyErrorNone
                  end
        end;
  let pfx := "{" +:+ uri +:+ "}" in
  c ← dict_getitem (attrib elem) "contextRef";
  Ok {| name := Str.replace (tag elem) pfx ""; c_id := c; value := text elem |}.

End Fact.

(** ** pandas, as far as the extractor uses it

    A frame is column-major, as pandas keeps it: the cells of every column,
    and the index labels of the rows.  Missing cells are [VNone]. *)

Module pd.

Record DataFrame : Type := mk { columns : dict (list value); index : list nat }.

(** [pd.DataFrame(data)] for a dictionary of lists: the lists must have one
    length, and the rows are labelled [0 .. n-1]. *)
Definition of_dict (data : dict (list value)) : result DataFrame :=
  match data with
  | [] => Ok {| columns := []; index := [] |}
  | (_, c0) :: _ =>
      if forallb (fun kc => (length kc.2 =? length c0)%nat) data
      then Ok {| columns := data; index := seq 0 (length c0) |}
      else Raise ValueError
  end.

Definition isna (v : value) : bool :=
  match v with
  | VNone => true
  | _ => false
  end.

(** The cells of the row at position [p], one per column. *)
Definition row_cells (f : DataFrame) (p : nat) : list value :=
  (fun kc => default VNone (kc.2 !! p)) <$> columns f.

Fixpoint select {A} (mask : list bool) (l : list A) : list A :=
  match mask, l with
  | b :: mask', x :: l' => if b then x :: select mask' l' else select mask' l'
  | _, _ => []
  end.

(** [df.dropna(how='all')]: a row goes when every one of its cells is
    missing; the rows that stay keep their labels. *)
Definition dropna_all (f : DataFrame) : DataFrame :=
  let mask := (fun p => negb (forallb isna (row_cells f p)))
                <$> seq 0 (length (index f)) in
  {| columns := (fun kc => (kc.1, select mask kc.2)) <$> columns f;
     index := select mask (index f) |}.

(** [df.drop(label, axis=1)] *)
Definition drop (f : DataFrame) (label : string) : result DataFrame :=
  if dict_contains label (columns f)
  then Ok {| columns := filter (fun kc => kc.1 ≠ label) (columns f);
             index := index f |}
  else Raise (KeyError label).

Definition cells_of (f : DataFrame) (k : string) : list value :=
  match dict_get (columns f) k with
  | Some c => c
  | None => replicate (length (index f)) VNone
  end.

(** Column names in the order of their first appearance. *)
Fixpoint first_seen (seen : list string) (names : list string) : list string :=
  match names with
  | [] => []
  | n :: names' =>
      if bool_decide (n ∈ seen) then first_seen seen names'
      else n :: first_seen (n :: seen) names'
  end.

(** [pd.concat(objs, ignore_index=True)]: rows one frame after the other,
    a column a frame lacks filled with missing cells, labels renumbered.
    An empty list of frames is a [ValueError]. *)
Definition concat (objs : list DataFrame) : result DataFrame :=
  match objs with
  | [] => Raise ValueError
  | _ =>
      let names := first_seen [] (objs ≫= (fun f => dict_keys (columns f))) in
      Ok {| columns := (fun k => (k, objs ≫= (fun f => cells_of f k))) <$> names;
            index := seq 0 (sum_list ((fun f => length (index f)) <$> objs)) |}
  end.

End pd.

(** The store: the [to_sql(name, engine, if_exists="append")] calls it has
    received, oldest first.  Whether the database takes a call or raises is
    not modelled: the list records what a run asks of the store, and says
    what the store holds only as long as every call is accepted. *)
Definition Engine : Type := list (string * pd.DataFrame).

Definition to_sql (df : pd.DataFrame) (name : string) (engine : Engine) : Engine :=
  engine ++ [(name, df)].

(** ** instance.py: [parse] *)

Definition parse_state : Type := dict Context.t * dict (list Fact.t).

(** One turn of the loop over the children of the root. *)
Definition parse_child (env : Env) (child : Element) (st : parse_state)
  : result parse_state :=
  let '(context_dict, fact_dict) := st in
  match dict_get (attrib child) "id" with
  | None => Ok st
  | Some id =>
      if Str.startswith id "c" then
        new_context ← Context.from_xml env child;
        Ok (dict_set context_dict (Context.c_id new_context) new_context,
            dict_set fact_dict (Context.c_id new_context) [])
      else if Str.startswith id "f" then
        new_fact ← Fact.from_xml child;
        match Fact.value new_fact with
        | Some _ =>
            facts ← dict_getitem fact_dict (Fact.c_id new_fact);
            Ok (context_dict,
                dict_set fact_dict (Fact.c_id new_fact) (facts ++ [new_fact]))
        | None => Ok st
        end
      else Ok st
  end.

Fixpoint parse_children (env : Env) (children : list Element) (st : parse_state)
  : result parse_state :=
  match children with
  | [] => Ok st
  | child :: rest => st' ← parse_child env child st; parse_children env rest st'
  end.

Definition parse (env : Env) (path : string)
  : result (dict Context.t * dict (list Fact.t) * string) :=
  root ← etree_parse env path;
  schema_ref ← etree.find root "link:schemaRef" (nsmap root) ≫= not_None;
  taxonomy_url ← dict_getitem (attrib schema_ref) TAXONOMY_PREFIX;
  st ← parse_children env (getchildren root) ([], []);
  Ok (st.1, st.2, taxonomy_url).

(** ** instance.py: [XbrlDb] *)

Module XbrlDb.

Record t : Type :=
  mk {
    engine : Engine;
    batch_size : Z;
    num_instances : Z;
    dfs : dict (list pd.DataFrame * list pd.DataFrame);
    counter : Z
  }.

Definition init (engine : Engine) (batch_size num_instances : Z) : t :=
  {| engine := engine; batch_size := batch_size; num_instances := num_instances;
     dfs := []; counter := 1 |}.

(** The first loop: the frames of the instance join the lists kept per key
    (the pair is the [{"duration": [...], "instant": [...]}] entry). *)
Definition accumulate (dfs : dict (list pd.DataFrame * list pd.DataFrame))
    (instance : dict (pd.DataFrame * pd.DataFrame))
  : dict (list pd.DataFrame * list pd.DataFrame) :=
  foldl (fun acc item =>
           let cur := default ([], []) (dict_get acc item.1) in
           dict_set acc item.1 (cur.1 ++ [item.2.1], cur.2 ++ [item.2.2]))
        dfs instance.

(** The second loop: every key's lists are concatenated and appended to the
    key's two tables.  Nothing is removed from the lists. *)
Fixpoint flush (items : list (string * (list pd.DataFrame * list pd.DataFrame)))
    (engine : Engine) : Engine * result unit :=
  match items with
  | [] => (engine, Ok tt)
  | (key, (duration, instant)) :: rest =>
      match pd.concat duration with
      | Raise e => (engine, Raise e)
      | Ok duration_df =>
          let engine := to_sql duration_df (key +:+ " - duration") engine in
          match pd.concat instant with
          | Raise e => (engine, Raise e)
          | Ok instant_df =>
              flush rest (to_sql instant_df (key +:+ " - instant") engine)
          end
      end
  end.

(** The test [counter % batch_size == 0 or counter == num_instances]; the
    remainder is Python's, which is [Z.modulo], and a zero divisor raises. *)
Definition batch_finished (self : t) : result bool :=
  if decide (batch_size self = 0)%Z then Raise ZeroDivisionError
  else Ok ((counter self mod batch_size self =? 0)%Z
           || (counter self =? num_instances self)%Z).

Definition append_instance (self : t)
    (instance : dict (pd.DataFrame * pd.DataFrame)) : t * result unit :=
  let self := {| engine := engine self; batch_size := batch_size self;
                 num_instances := num_instances self;
                 dfs := accumulate (dfs self) instance;
                 counter := counter self |} in
  match batch_finished self with
  | Raise e => (self, Raise e)
  | Ok finished =>
      let '(engine', r) :=
        if finished then flush (dfs self) (engine self) else (engine self, Ok tt) in
      let self := {| engine := engine'; batch_size := batch_size self;
                     num_instances := num_instances self;
                     dfs := dfs self; counter := counter self |} in
      match r with
      | Raise e => (self, Raise e)
      | Ok _ =>
          ({| engine := engine self; batch_size := batch_size self;
              num_instances := num_instances self;
              dfs := dfs self; counter := (counter self + 1)%Z |}, Ok tt)
      end
  end.

(** Feeding the instances of a run one after the other. *)
Fixpoint append_all (self : t) (instances : list (dict (pd.DataFrame * pd.DataFrame)))
  : t * result unit :=
  match instances with
  | [] => (self, Ok tt)
  | instance :: rest =>
      match append_instance self instance with
      | (self', Ok _) => append_all self' rest
      | (self', Raise e) => (self', Raise e)
      end
  end.

End XbrlDb.

(** ** The taxonomy *)

Module Concept.

(** Modelled from the spec: [taxonomy.py] is not among the sources; section 6
    gives the interface the extractor reads, [Concept{name, type,
    child_concepts}]. *)
Inductive t : Type :=
  mk { name : string; type : string; child_concepts : list t }.

End Concept.

Module LinkRole.

(** Modelled from the spec: a role ([LinkRole]) of the taxonomy, with the
    [definition] that names its table and its [concepts] tree. *)
Record t : Type := mk { definition : string; concepts : Concept.t }.

End LinkRole.

Module Taxonomy.

(** Modelled from the spec: a taxonomy exposes [roles], a sequence of
    [LinkRole]. *)
Record t : Type := mk { roles : list LinkRole.t }.

End Taxonomy.

(** ** xbrl.py

    [xbrl.py] reaches [instance.py] at two places under names of its own,
    and the embedding keeps both as they are written: it asks
    [context.in_axes(axes)], a method [Context] does not define (the test
    is there as [check_dimensions]), and it binds two names to the three
    values [parse] returns. *)

Inductive dtype : Type := py_str | py_int | np_float64 | np_int64 | np_bool8.

Definition DTYPE_MAP : dict dtype :=
  dict_of_items
    [("String", py_str);
     ("Decimal", np_float64);
     ("GYear", np_int64);
     ("Power", np_float64);
     ("Integer", np_int64);
     ("Monetary", np_int64);
     ("PerUnit", np_float64);
     ("Energy", np_int64);
     ("Date", py_str);
     ("FormType", py_str);
     ("ReportPeriod", py_str);
     ("Default", py_str)].

(** [DTYPE_MAP[type] if type in DTYPE_MAP else DTYPE_MAP["Default"]] *)
Definition dtype_of (type : string) : dtype :=
  match dict_get DTYPE_MAP type with
  | Some d => d
  | None => default py_str (dict_get DTYPE_MAP "Default")
  end.

Fixpoint get_cols_from_line_item (concept : Concept.t) : dict dtype :=
  if (0 <? length (Concept.child_concepts concept))%nat
  then foldl (fun cols item => dict_update cols (get_cols_from_line_item item))
             [] (Concept.child_concepts concept)
  else [(Concept.name concept, dtype_of (Concept.type concept))].

Definition get_columns_from_table (concept : Concept.t) : dict dtype :=
  foldl (fun cols item => dict_update cols (get_cols_from_line_item item))
        [] (Concept.child_concepts concept).

(** The dictionary [{"axes": axes, "columns": columns}] *)
Record TableInfo : Type := mkTableInfo { axes : list string; columns : dict dtype }.

Definition base_columns (axes : list string) : dict dtype :=
  dict_of_items
    ([("context_id", py_str);
      ("entity_id", py_str);
      ("start_date", py_str);
      ("end_date", py_str);
      ("instant", np_bool8)]
     ++ dict_of_items ((fun axis => (axis, py_str)) <$> axes)).

Definition get_fact_table (schedule : LinkRole.t) (gen_filing_id : bool)
  : result TableInfo :=
  root_concept ← match Concept.child_concepts (LinkRole.concepts schedule) with
                 | c :: _ => Ok c
                 | [] => Raise IndexError
                 end;
  let axes :=
    Concept.name <$> filter (fun concept => Concept.type concept = "Axis")
                            (Concept.child_concepts root_concept) in
  let columns := base_columns axes in
  let columns := if gen_filing_id then dict_set columns "filing_id" py_int
                 else columns in
  let columns :=
    foldl (fun cols child_concept =>
             if Str.endswith (Concept.name child_concept) "LineItems"
             then dict_update cols (get_columns_from_table child_concept)
             else cols)
          columns (Concept.child_concepts root_concept) in
  Ok {| axes := axes; columns := columns |}.

(** [context.in_axes(axes)]: neither [Context] nor the pydantic base class
    has an attribute of that name, so the lookup raises before anything is
    called. *)
Definition in_axes (context : Context.t) (axes : list string) : result bool :=
  Raise AttributeError.

(** [{fact.name: fact.value for fact in facts if fact.name in cols}] *)
Definition select_facts (cols : dict dtype) (facts : list Fact.t) : dict value :=
  dict_of_items
    ((fun fact => (Fact.name fact, of_opt VStr (Fact.value fact)))
       <$> filter (fun fact => dict_contains (Fact.name fact) cols = true) facts).

(** [df[key][i] = val] *)
Definition set_cell (df : dict (list value)) (key : string) (i : nat) (val : value)
  : result (dict (list value)) :=
  col ← dict_getitem df key;
  if decide (i < length col) then Ok (dict_set df key (<[i := val]> col))
  else Raise IndexError.

(** [for key, val in row.items(): df[key][i] = val] *)
Fixpoint write_row (items : list (string * value)) (i : nat)
    (df : dict (list value)) : result (dict (list value)) :=
  match items with
  | [] => Ok df
  | (key, val) :: rest => df' ← set_cell df key i val; write_row rest i df'
  end.

(** The loop over [enumerate(contexts.items())], entered with the index [i]
    of its first item. *)
Fixpoint fill_rows (facts : dict (list Fact.t)) (cols : dict dtype)
    (filing_id : option Z) (i : nat) (items : list (string * Context.t))
    (df : dict (list value)) : result (dict (list value)) :=
  match items with
  | [] => Ok df
  | (c_id, context) :: rest =>
      fs ← dict_getitem facts c_id;
      let row := select_facts cols fs in
      match row with
      | [] => fill_rows facts cols filing_id (S i) rest df
      | _ =>
          let row := dict_update row (Context.get_context_ids context filing_id) in
          df' ← write_row row i df;
          fill_rows facts cols filing_id (S i) rest df'
      end
  end.

(** [[x for x in xs if test(x)]], stopping at the first exception *)
Fixpoint filterM {A} (test : A -> result bool) (xs : list A) : result (list A) :=
  match xs with
  | [] => Ok []
  | x :: xs' =>
      keep ← test x;
      kept ← filterM test xs';
      Ok (if keep : bool then x :: kept else kept)
  end.

(** [{c_id: context for c_id, context in contexts.items()
     if context.in_axes(axes)}] *)
Definition retained (contexts : dict Context.t) (axes : list string)
  : result (dict Context.t) :=
  items ← filterM (fun item => in_axes item.2 axes) contexts;
  Ok (dict_of_items items).

(** [{key: [None]*max_len for key, dtype in cols.items()}] *)
Definition empty_frame (cols : dict dtype) (max_len : nat) : dict (list value) :=
  dict_of_items ((fun item => (item.1, replicate max_len VNone)) <$> cols).

Definition construct_dataframe (contexts : dict Context.t)
    (facts : dict (list Fact.t)) (table_info : TableInfo) (filing_id : option Z)
  : result pd.DataFrame :=
  let cols := columns table_info in
  let axes := axes table_info in
  contexts ← retained contexts axes;
  let max_len := length contexts in
  let df := empty_frame cols max_len in
  df ← fill_rows facts cols filing_id 0 contexts df;
  frame ← pd.of_dict df;
  pd.drop (pd.dropna_all frame) "context_id".

Fixpoint build_frames (contexts : dict Context.t) (facts : dict (list Fact.t))
    (filing_id : option Z) (tables : list (string * TableInfo))
    (dfs : dict pd.DataFrame) : result (dict pd.DataFrame) :=
  match tables with
  | [] => Ok dfs
  | (key, table) :: rest =>
      df ← construct_dataframe contexts facts table filing_id;
      build_frames contexts facts filing_id rest (dict_set dfs key df)
  end.

(** [a, b = t] for a tuple [t] of three values: too many values to
    unpack. *)
Definition unpack_two {A B C} (t : A * B * C) : result (A * B) :=
  Raise ValueError.

Definition process_instance (env : Env) (instance : string * Z)
    (tables : dict TableInfo) (engine : Engine) (gen_filing_id : bool)
  : result (dict pd.DataFrame) :=
  let '(instance_path, i) := instance in
  parsed ← parse env instance_path;
  unpacked ← unpack_two parsed;
  let '(contexts, facts) := unpacked in
  let filing_id := if gen_filing_id then Some i else None in
  build_frames contexts facts filing_id tables [].

(** [{role.definition: get_fact_table(role, gen_filing_id) for role in
    taxonomy.roles}] *)
Fixpoint derive_tables (roles : list LinkRole.t) (gen_filing_id : bool)
    (tables : dict TableInfo) : result (dict TableInfo) :=
  match roles with
  | [] => Ok tables
  | role :: rest =>
      table ← get_fact_table role gen_filing_id;
      derive_tables rest gen_filing_id
                    (dict_set tables (LinkRole.definition role) table)
  end.

(** The inner loop of the merge: [dfs[key] = pd.concat([dfs[key], df])] for
    the items of [dfs] itself. *)
Fixpoint merge_frames (items : list (string * pd.DataFrame))
    (dfs : dict pd.DataFrame) : result (dict pd.DataFrame) :=
  match items with
  | [] => Ok dfs
  | (key, df) :: rest =>
      cur ← dict_getitem dfs key;
      merged ← pd.concat [cur; df];
      merge_frames rest (dict_set dfs key merged)
  end.

(** The loop [for dfs in results]: a result is handed over in the order of
    submission, and the exception of a worker is raised when its result is
    asked for.  [last] is the binding of [dfs] that the loop leaves. *)
Fixpoint merge_results (results : list (result (dict pd.DataFrame)))
    (last : option (dict pd.DataFrame)) : result (option (dict pd.DataFrame)) :=
  match results with
  | [] => Ok last
  | r :: rest =>
      dfs ← r;
      dfs' ← merge_frames dfs dfs;
      merge_results rest (Some dfs')
  end.

(** [ThreadPoolExecutor(max_workers=threads)] *)
Definition thread_pool (threads : option Z) : result unit :=
  match threads with
  | Some n => if decide (n <= 0)%Z then Raise ValueError else Ok tt
  | None => Ok tt
  end.

Definition extract (env : Env) (taxonomy : Taxonomy.t)
    (instance_paths : list (string * Z)) (engine : Engine) (batch_size : Z)
    (threads : option Z) (gen_filing_id : bool) : Engine * result unit :=
  let outcome :=
    tables ← derive_tables (Taxonomy.roles taxonomy) gen_filing_id [];
    _ ← thread_pool threads;
    let results :=
      (fun instance => process_instance env instance tables engine gen_filing_id)
        <$> instance_paths in
    last ← merge_results results None;
    match last with
    | None => Raise (NameError "dfs")
    | Some dfs => Ok dfs
    end in
  match outcome with
  | Raise e => (engine, Raise e)
  | Ok dfs =>
      (foldl (fun engine item => to_sql item.2 item.1 engine) engine dfs, Ok tt)
  end.

(** * Properties *)

(** ** Dictionaries *)

Section DictFacts.
Context {V : Type}.
Implicit Types (d : dict V) (k : string) (v : V) (items : list (string * V)).

(** The binding of [k] that a left-to-right insertion of [items] leaves:
    the last one. *)
Fixpoint get_last (items : list (string * V)) (k : string) : option V :=
  match items with
  | [] => None
  | (k', v) :: rest =>
      match get_last rest k with
      | Some w => Some w
      | None => if decide (k' = k) then Some v else None
      end
  end.

Lemma dict_get_set_eq d k v : dict_get (dict_set d k v) k = Some v.
Proof.
  induction d as [|[k' v'] d IH]; simpl.
  - by rewrite decide_True.
  - destruct (decide (k' = k)) as [->|Hne]; simpl.
    + by rewrite decide_True.
    + by rewrite decide_False.
Qed.

Lemma dict_get_set_ne d k k' v :
  k ≠ k' → dict_get (dict_set d k v) k' = dict_get d k'.
Proof.
  intros Hne. induction d as [|[k0 v0] d IH]; simpl.
  - by rewrite decide_False.
  - destruct (decide (k0 = k)) as [->|Hne0]; simpl.
    + by rewrite !decide_False.
    + by rewrite IH.
Qed.

Lemma dict_get_None d k : dict_get d k = None ↔ k ∉ dict_keys d.
Proof.
  unfold dict_keys. induction d as [|[k' v'] d IH]; simpl.
  - split; [intros _; apply not_elem_of_nil | done].
  - rewrite not_elem_of_cons. destruct (decide (k' = k)) as [->|Hne].
    + split; [done | intros [? _]; done].
    + rewrite IH. split; [intros ?; split; [congruence | done] | tauto].
Qed.

Lemma dict_get_Some_keys d k v : dict_get d k = Some v → k ∈ dict_keys d.
Proof.
  intros H. destruct (decide (k ∈ dict_keys d)) as [|Hn]; [done|].
  apply dict_get_None in Hn. congruence.
Qed.

Lemma dict_get_is_Some d k : k ∈ dict_keys d → is_Some (dict_get d k).
Proof.
  intros H. destruct (dict_get d k) eqn:E; [by eexists|].
  apply dict_get_None in E. done.
Qed.

Lemma dict_get_elem_of d k v : dict_get d k = Some v → (k, v) ∈ d.
Proof.
  induction d as [|[k' v'] d IH]; simpl; [done|].
  destruct (decide (k' = k)) as [->|Hne].
  - intros [= ->]. left.
  - intros H. right. by apply IH.
Qed.

Lemma dict_keys_set d k v :
  dict_keys (dict_set d k v)
  = if bool_decide (k ∈ dict_keys d) then dict_keys d else dict_keys d ++ [k].
Proof.
  unfold dict_keys. induction d as [|[k' v'] d IH]; [done|].
  cbn [dict_set]. destruct (decide (k' = k)) as [->|Hne].
  - rewrite !fmap_cons. cbn [fst]. by rewrite bool_decide_true by left.
  - rewrite !fmap_cons, IH. cbn [fst]. destruct (decide (k ∈ d.*1)) as [Hin|Hnin].
    + rewrite !bool_decide_true; [done | by right | done].
    + rewrite !bool_decide_false; [done | | done].
      rewrite not_elem_of_cons. split; [congruence | done].
Qed.

Lemma elem_of_dict_keys_set d k v k' :
  k' ∈ dict_keys (dict_set d k v) ↔ k' = k ∨ k' ∈ dict_keys d.
Proof.
  rewrite dict_keys_set. case_bool_decide as Hin.
  - split; [by right | intros [->|]; done].
  - rewrite elem_of_app, list_elem_of_singleton. tauto.
Qed.

Lemma NoDup_dict_keys_set d k v :
  NoDup (dict_keys d) → NoDup (dict_keys (dict_set d k v)).
Proof.
  intros Hd. rewrite dict_keys_set. case_bool_decide as Hin; [done|].
  apply NoDup_app. split; [done|]. split; [|apply NoDup_singleton].
  intros x Hx Hk. apply list_elem_of_singleton in Hk. by subst.
Qed.

Lemma dict_update_app d items1 items2 :
  dict_update d (items1 ++ items2) = dict_update (dict_update d items1) items2.
Proof. unfold dict_update. apply foldl_app. Qed.

Lemma dict_update_cons d kv items :
  dict_update d (kv :: items) = dict_update (dict_set d kv.1 kv.2) items.
Proof. done. Qed.

Lemma NoDup_dict_keys_update d items :
  NoDup (dict_keys d) → NoDup (dict_keys (dict_update d items)).
Proof.
  revert d. induction items as [|kv items IH]; intros d Hd; [done|].
  rewrite dict_update_cons. apply IH. by apply NoDup_dict_keys_set.
Qed.

Lemma NoDup_dict_keys_of_items items : NoDup (dict_keys (dict_of_items items)).
Proof. apply NoDup_dict_keys_update. apply NoDup_nil_2. Qed.

Lemma elem_of_dict_keys_update d items k :
  k ∈ dict_keys (dict_update d items) ↔ k ∈ dict_keys d ∨ k ∈ items.*1.
Proof.
  revert d. induction items as [|[k' v'] items IH]; intros d.
  - simpl. split; [by left | intros [|H]; [done | by apply elem_of_nil in H]].
  - rewrite dict_update_cons, IH, elem_of_dict_keys_set. simpl.
    rewrite elem_of_cons. tauto.
Qed.

Lemma elem_of_dict_set d k v k0 v0 :
  (k0, v0) ∈ dict_set d k v → (k0, v0) ∈ d ∨ (k0 = k ∧ v0 = v).
Proof.
  induction d as [|[k' v'] d IH]; cbn [dict_set].
  - intros [= -> ->]%list_elem_of_singleton. by right.
  - destruct (decide (k' = k)) as [->|Hne].
    + intros [[= -> ->] | Hin]%elem_of_cons; [by right | left; by right].
    + intros [[= -> ->] | Hin]%elem_of_cons; [left; by left|].
      destruct (IH Hin) as [? | ?]; [left; by right | by right].
Qed.

Lemma elem_of_dict_update d items k v :
  (k, v) ∈ dict_update d items → (k, v) ∈ d ∨ (k, v) ∈ items.
Proof.
  revert d. induction items as [|[k' v'] items IH]; intros d; [by left|].
  rewrite dict_update_cons. intros [Hin | Hin]%IH; [|right; by right].
  apply elem_of_dict_set in Hin as [Hin | [-> ->]]; [by left | right; by left].
Qed.

Lemma elem_of_dict_of_items items k v :
  (k, v) ∈ dict_of_items items → (k, v) ∈ items.
Proof.
  intros [Hnil | Hin]%elem_of_dict_update; [by apply elem_of_nil in Hnil | done].
Qed.

Lemma elem_of_dict_keys_of_items items k :
  k ∈ dict_keys (dict_of_items items) ↔ k ∈ items.*1.
Proof.
  unfold dict_of_items. rewrite elem_of_dict_keys_update. split.
  - intros [Hnil | Hin]; [by apply elem_of_nil in Hnil | done].
  - by right.
Qed.

Lemma get_last_app items1 items2 k :
  get_last (items1 ++ items2) k
  = match get_last items2 k with
    | Some v => Some v
    | None => get_last items1 k
    end.
Proof.
  induction items1 as [|[k' v'] items1 IH]; simpl.
  - by destruct (get_last items2 k).
  - rewrite IH. by destruct (get_last items2 k).
Qed.

Lemma get_last_None items k : get_last items k = None ↔ k ∉ items.*1.
Proof.
  induction items as [|[k' v'] items IH]; simpl.
  - split; [intros _; apply not_elem_of_nil | done].
  - rewrite not_elem_of_cons. destruct (get_last items k) eqn:E.
    + split; [done|]. intros [_ Hn]. apply IH in Hn. done.
    + destruct (decide (k' = k)) as [->|Hne].
      * split; [done | intros [? _]; done].
      * split; [intros _; split; [congruence | by apply IH] | done].
Qed.

Lemma get_last_elem_of items k v : get_last items k = Some v → (k, v) ∈ items.
Proof.
  induction items as [|[k' v'] items IH]; simpl; [done|].
  destruct (get_last items k) eqn:E.
  - intros [= ->]. right. by apply IH.
  - destruct (decide (k' = k)) as [->|Hne]; [|done].
    intros [= ->]. left.
Qed.

Lemma dict_get_update d items k :
  dict_get (dict_update d items) k
  = match get_last items k with
    | Some v => Some v
    | None => dict_get d k
    end.
Proof.
  revert d. induction items as [|[k' v'] items IH]; intros d; [done|].
  rewrite dict_update_cons, IH. simpl. destruct (get_last items k); [done|].
  destruct (decide (k' = k)) as [->|Hne].
  - apply dict_get_set_eq.
  - by apply dict_get_set_ne.
Qed.

Lemma dict_get_of_items items k : dict_get (dict_of_items items) k = get_last items k.
Proof.
  unfold dict_of_items. rewrite dict_get_update. by destruct (get_last items k).
Qed.

Lemma get_last_NoDup d k : NoDup (dict_keys d) → get_last d k = dict_get d k.
Proof.
  unfold dict_keys. induction d as [|[k' v'] d IH]; simpl; [done|].
  intros [Hnin Hd]%NoDup_cons. rewrite IH by done.
  destruct (decide (k' = k)) as [->|Hne]; [|by destruct (dict_get d k)].
  apply dict_get_None in Hnin. by rewrite Hnin.
Qed.

(** Inserting fresh, pairwise distinct keys appends the items as they
    come. *)
Lemma dict_update_fresh d items :
  NoDup (items.*1) → (∀ k, k ∈ items.*1 → k ∉ dict_keys d) →
  dict_update d items = d ++ items.
Proof.
  revert d. induction items as [|[k v] items IH]; intros d Hnd Hfresh.
  - by rewrite app_nil_r.
  - simpl in Hnd. apply NoDup_cons in Hnd as [Hk Hnd].
    rewrite dict_update_cons. simpl.
    assert (Hset : dict_set d k v = d ++ [(k, v)]).
    { assert (Hd : k ∉ dict_keys d) by (apply Hfresh; left).
      clear -Hd. unfold dict_keys in Hd.
      induction d as [|[k' v'] d IH]; simpl; [done|].
      simpl in Hd. apply not_elem_of_cons in Hd as [Hne Hd].
      rewrite decide_False by congruence. by rewrite IH. }
    rewrite Hset, IH; [by rewrite <- app_assoc | done |].
    intros k' Hk'. unfold dict_keys. rewrite fmap_app, elem_of_app.
    intros [Hin | Hin].
    + apply (Hfresh k'); [by right | done].
    + simpl in Hin. apply list_elem_of_singleton in Hin. by subst.
Qed.

(** A list of items with distinct keys is the dictionary it displays. *)
Lemma dict_of_items_NoDup items : NoDup (items.*1) → dict_of_items items = items.
Proof.
  intros Hnd. unfold dict_of_items. rewrite dict_update_fresh; [done | done |].
  intros k _. apply not_elem_of_nil.
Qed.

End DictFacts.

(** ** The schema deriver *)

(** Induction over a concept tree, with the property at hand for every
    child. *)
Lemma Concept_tree_ind (P : Concept.t → Prop) :
  (∀ name type children, Forall P children → P (Concept.mk name type children)) →
  ∀ concept, P concept.
Proof.
  intros Hstep. fix IH 1. intros [name type children]. apply Hstep.
  induction children as [|child children IHc]; constructor; [apply IH | apply IHc].
Qed.

(** The leaf concepts below (and including) a concept, depth first. *)
Fixpoint leaves (concept : Concept.t) : list Concept.t :=
  match Concept.child_concepts concept with
  | [] => [concept]
  | _ :: _ => Concept.child_concepts concept ≫= leaves
  end.

(** The column a leaf stands for. *)
Definition leaf_column (leaf : Concept.t) : string * dtype :=
  (Concept.name leaf, dtype_of (Concept.type leaf)).

Definition leaf_columns (concept : Concept.t) : list (string * dtype) :=
  leaf_column <$> leaves concept.

Lemma foldl_dict_update {A V} (f : A → dict V) (d : dict V) (items : list A) :
  foldl (fun cols item => dict_update cols (f item)) d items
  = dict_update d (items ≫= f).
Proof.
  revert d. induction items as [|item items IH]; intros d; [done|].
  cbn [foldl]. rewrite IH, bind_cons. by rewrite dict_update_app.
Qed.

Lemma get_columns_from_table_items concept :
  get_columns_from_table concept
  = dict_of_items (Concept.child_concepts concept ≫= get_cols_from_line_item).
Proof. unfold get_columns_from_table. apply foldl_dict_update. Qed.

Lemma get_cols_from_line_item_unfold concept :
  get_cols_from_line_item concept
  = if (0 <? length (Concept.child_concepts concept))%nat
    then get_columns_from_table concept
    else [leaf_column concept].
Proof. by destruct concept. Qed.

Lemma NoDup_get_cols_from_line_item concept :
  NoDup (dict_keys (get_cols_from_line_item concept)).
Proof.
  rewrite get_cols_from_line_item_unfold. case_match.
  - rewrite get_columns_from_table_items. apply NoDup_dict_keys_of_items.
  - apply NoDup_singleton.
Qed.

Lemma leaf_columns_group name type child rest :
  leaf_columns (Concept.mk name type (child :: rest))
  = (child :: rest) ≫= leaf_columns.
Proof.
  unfold leaf_columns. cbn [leaves Concept.child_concepts].
  generalize (child :: rest). intros cs.
  induction cs as [|c cs IH]; [done|].
  rewrite !bind_cons, fmap_app. by rewrite IH.
Qed.

Lemma get_last_bind_ext {A V} (f g : A → list (string * V)) (items : list A) k :
  Forall (fun item => get_last (f item) k = get_last (g item) k) items →
  get_last (items ≫= f) k = get_last (items ≫= g) k.
Proof.
  induction 1 as [|item items Hitem _ IH]; [done|].
  rewrite !bind_cons, !get_last_app. by rewrite IH, Hitem.
Qed.

(** What the walk returns, seen through lookups: the binding of a name is
    that of the last leaf bearing it. *)
Lemma dict_get_get_cols_from_line_item concept k :
  dict_get (get_cols_from_line_item concept) k = get_last (leaf_columns concept) k.
Proof.
  induction concept as [name type children IH] using Concept_tree_ind.
  rewrite get_cols_from_line_item_unfold. cbn [Concept.child_concepts].
  destruct children as [|child rest]; [done|].
  cbn [length Nat.ltb Nat.leb]. rewrite get_columns_from_table_items.
  cbn [Concept.child_concepts]. rewrite dict_get_of_items, leaf_columns_group.
  apply get_last_bind_ext. eapply Forall_impl; [exact IH|].
  intros c Hc. cbn beta in Hc. rewrite <- Hc.
  apply get_last_NoDup, NoDup_get_cols_from_line_item.
Qed.

Lemma elem_of_keys_get_cols_from_line_item concept k :
  k ∈ dict_keys (get_cols_from_line_item concept)
  ↔ k ∈ Concept.name <$> leaves concept.
Proof.
  assert (Hfst : (leaf_columns concept).*1 = Concept.name <$> leaves concept).
  { unfold leaf_columns. rewrite <- list_fmap_compose. done. }
  rewrite <- Hfst. split.
  - intros [v Hv]%dict_get_is_Some.
    rewrite dict_get_get_cols_from_line_item in Hv.
    destruct (decide (k ∈ (leaf_columns concept).*1)) as [|Hn]; [done|].
    apply get_last_None in Hn. congruence.
  - intros Hin. destruct (dict_get (get_cols_from_line_item concept) k) eqn:E.
    + by eapply dict_get_Some_keys.
    + rewrite dict_get_get_cols_from_line_item in E.
      apply get_last_None in E. done.
Qed.

Lemma NoDup_bind_names (cs : list Concept.t) :
  NoDup (Concept.name <$> (cs ≫= leaves)) →
  Forall (fun c => NoDup (Concept.name <$> leaves c)) cs.
Proof.
  induction cs as [|c cs IH]; [constructor|].
  rewrite bind_cons, fmap_app. intros (Hc & _ & Hcs)%NoDup_app.
  constructor; [done | by apply IH].
Qed.

(** With pairwise distinct leaf names the walk returns the leaf columns as
    they stand in the tree. *)
Lemma get_cols_from_line_item_distinct concept :
  NoDup (Concept.name <$> leaves concept) →
  get_cols_from_line_item concept = leaf_columns concept.
Proof.
  induction concept as [name type children IH] using Concept_tree_ind.
  intros Hnd. rewrite get_cols_from_line_item_unfold. cbn [Concept.child_concepts].
  destruct children as [|child rest]; [done|].
  cbn [length Nat.ltb Nat.leb]. rewrite get_columns_from_table_items.
  cbn [Concept.child_concepts]. rewrite leaf_columns_group.
  cbn [leaves Concept.child_concepts] in Hnd. revert IH Hnd.
  generalize (child :: rest). intros cs IH Hnd.
  assert (Heq : cs ≫= get_cols_from_line_item = cs ≫= leaf_columns).
  { pose proof (NoDup_bind_names cs Hnd) as Hall. clear Hnd.
    induction cs as [|c cs IHcs]; [done|].
    apply Forall_cons in IH as [Hc IH]. apply Forall_cons in Hall as [Hndc Hall].
    rewrite !bind_cons. by rewrite Hc, IHcs. }
  rewrite Heq. unfold dict_of_items. rewrite dict_update_fresh; [done | |].
  - assert (Hfst : (cs ≫= leaf_columns).*1 = Concept.name <$> (cs ≫= leaves)).
    { clear. induction cs as [|c cs IH]; [done|].
      rewrite !bind_cons, !fmap_app, IH. f_equal.
      unfold leaf_columns. by rewrite <- list_fmap_compose. }
    by rewrite Hfst.
  - intros k _. apply not_elem_of_nil.
Qed.

Lemma dtype_of_other type :
  type ∉ ["Monetary"; "Integer"; "GYear"; "Energy"; "Decimal"; "Power"; "PerUnit"] →
  dtype_of type = py_str.
Proof.
  intros Hn. unfold dtype_of.
  let m := eval vm_compute in DTYPE_MAP in change DTYPE_MAP with m.
  cbn [dict_get].
  repeat (case_decide; [first [done | subst; exfalso; apply Hn; repeat constructor]|]).
  done.
Qed.

Lemma fmap_bind_list {A B C} (f : B → C) (g : A → list B) (l : list A) :
  f <$> (l ≫= g) = l ≫= (fun x => f <$> g x).
Proof.
  induction l as [|x l IH]; [done|]. by rewrite !bind_cons, fmap_app, IH.
Qed.

Lemma get_last_get_columns_from_table concept k :
  get_last (get_columns_from_table concept) k
  = get_last (leaf_column <$> (Concept.child_concepts concept ≫= leaves)) k.
Proof.
  rewrite get_columns_from_table_items.
  rewrite get_last_NoDup by apply NoDup_dict_keys_of_items.
  rewrite dict_get_of_items, fmap_bind_list.
  apply get_last_bind_ext, Forall_forall. intros child _.
  rewrite get_last_NoDup by apply NoDup_get_cols_from_line_item.
  apply dict_get_get_cols_from_line_item.
Qed.

Lemma elem_of_keys_get_columns_from_table concept k :
  k ∈ dict_keys (get_columns_from_table concept)
  ↔ k ∈ Concept.name <$> (Concept.child_concepts concept ≫= leaves).
Proof.
  rewrite get_columns_from_table_items. unfold dict_of_items.
  rewrite elem_of_dict_keys_update. unfold dict_keys at 1. cbn [fmap list_fmap].
  rewrite !list_elem_of_fmap. split.
  - intros [Hnil | ([k' v] & -> & Hin)]; [by apply elem_of_nil in Hnil|].
    apply list_elem_of_bind in Hin as (child & Hin & Hchild).
    assert (Hk : k' ∈ dict_keys (get_cols_from_line_item child)).
    { apply list_elem_of_fmap. by exists (k', v). }
    apply elem_of_keys_get_cols_from_line_item, list_elem_of_fmap in Hk
      as (leaf & -> & Hleaf).
    exists leaf. split; [done|]. apply list_elem_of_bind. eauto.
  - intros (leaf & -> & Hin). right.
    apply list_elem_of_bind in Hin as (child & Hleaf & Hchild).
    assert (Hk : Concept.name leaf ∈ dict_keys (get_cols_from_line_item child)).
    { apply elem_of_keys_get_cols_from_line_item, list_elem_of_fmap. eauto. }
    apply list_elem_of_fmap in Hk as ([k' v] & Hk & Hin). simpl in Hk. subst k'.
    exists (Concept.name leaf, v). split; [done|].
    apply list_elem_of_bind. eauto.
Qed.

(** With pairwise distinct leaf names below it, the walk started on a
    concept returns the columns of those leaves as they stand in the tree. *)
Lemma get_columns_from_table_distinct concept :
  NoDup (Concept.name <$> (Concept.child_concepts concept ≫= leaves)) →
  get_columns_from_table concept
  = leaf_column <$> (Concept.child_concepts concept ≫= leaves).
Proof.
  destruct concept as [name type [|child rest]]; [done|].
  intros Hnd.
  assert (get_cols_from_line_item (Concept.mk name type (child :: rest))
          = get_columns_from_table (Concept.mk name type (child :: rest))) as <-
    by (by rewrite get_cols_from_line_item_unfold).
  by rewrite get_cols_from_line_item_distinct.
Qed.

(** C8. The walk that [get_fact_table] starts on a LineItems concept,
    [get_columns_from_table], merges what [get_cols_from_line_item] returns
    for the children of the concept, and gives no column for the concept
    itself.  [get_cols_from_line_item] yields, for a leaf concept, exactly
    its own column, typed by [DTYPE_MAP], and for a concept with children
    what the walk started on that concept returns, none of its own,
    whatever its name and type.  So the columns of the walk are those of
    the leaves below the LineItems concept (a name borne by several leaves
    is one column, typed by the last of them), and with distinct leaf
    names there is exactly one column per leaf, in tree order.  The type
    mapping sends Monetary, Integer, GYear and Energy to integer64,
    Decimal, Power and PerUnit to float64 and every other type name to
    string. *)
Theorem line_item_walk :
  (∀ concept,
     get_columns_from_table concept
     = dict_of_items (Concept.child_concepts concept ≫= get_cols_from_line_item)
     ∧ NoDup (dict_keys (get_columns_from_table concept))
     ∧ (∀ k, k ∈ dict_keys (get_columns_from_table concept)
             ↔ k ∈ Concept.name <$> (Concept.child_concepts concept ≫= leaves))
     ∧ (∀ k, dict_get (get_columns_from_table concept) k
             = get_last (leaf_column
                           <$> (Concept.child_concepts concept ≫= leaves)) k)
     ∧ (NoDup (Concept.name <$> (Concept.child_concepts concept ≫= leaves)) →
        get_columns_from_table concept
        = leaf_column <$> (Concept.child_concepts concept ≫= leaves)))
  ∧ (∀ name type,
       get_cols_from_line_item (Concept.mk name type []) = [(name, dtype_of type)])
  ∧ (∀ name type child rest,
       get_cols_from_line_item (Concept.mk name type (child :: rest))
       = get_columns_from_table (Concept.mk name type (child :: rest)))
  ∧ (∀ concept,
       NoDup (dict_keys (get_cols_from_line_item concept))
       ∧ (∀ k, k ∈ dict_keys (get_cols_from_line_item concept)
               ↔ k ∈ Concept.name <$> leaves concept)
       ∧ (∀ k, dict_get (get_cols_from_line_item concept) k
               = get_last (leaf_columns concept) k)
       ∧ (NoDup (Concept.name <$> leaves concept) →
          get_cols_from_line_item concept = leaf_columns concept))
  ∧ (dtype_of "Monetary" = np_int64 ∧ dtype_of "Integer" = np_int64
     ∧ dtype_of "GYear" = np_int64 ∧ dtype_of "Energy" = np_int64
     ∧ dtype_of "Decimal" = np_float64 ∧ dtype_of "Power" = np_float64
     ∧ dtype_of "PerUnit" = np_float64
     ∧ dtype_of "String" = py_str ∧ dtype_of "Date" = py_str
     ∧ dtype_of "FormType" = py_str ∧ dtype_of "ReportPeriod" = py_str
     ∧ ∀ type,
         type ∉ ["Monetary"; "Integer"; "GYear"; "Energy";
                 "Decimal"; "Power"; "PerUnit"] →
         dtype_of type = py_str).
Proof.
  split.
  { intros concept. split; [apply get_columns_from_table_items|].
    split.
    { rewrite get_columns_from_table_items. apply NoDup_dict_keys_of_items. }
    split; [apply elem_of_keys_get_columns_from_table|].
    split; [|apply get_columns_from_table_distinct].
    intros k. rewrite <- get_last_get_columns_from_table.
    symmetry. apply get_last_NoDup.
    rewrite get_columns_from_table_items. apply NoDup_dict_keys_of_items. }
  split; [done|]. split.
  { intros name type child rest. by rewrite get_cols_from_line_item_unfold. }
  split.
  { intros concept. split; [apply NoDup_get_cols_from_line_item|].
    split; [apply elem_of_keys_get_cols_from_line_item|].
    split; [apply dict_get_get_cols_from_line_item|].
    apply get_cols_from_line_item_distinct. }
  repeat (split; [by vm_compute|]). apply dtype_of_other.
Qed.

(** The axes of a role: the names of the children of its root concept that
    are typed "Axis". *)
Definition axis_names (root : Concept.t) : list string :=
  Concept.name <$> filter (fun concept => Concept.type concept = "Axis")
                          (Concept.child_concepts root).

(** The leaf concepts below the children of the root whose name ends in
    "LineItems". *)
Definition line_item_leaves (root : Concept.t) : list Concept.t :=
  filter (fun child => Str.endswith (Concept.name child) "LineItems" = true)
         (Concept.child_concepts root)
  ≫= (fun child => Concept.child_concepts child ≫= leaves).

Definition line_item_columns (root : Concept.t) : list (string * dtype) :=
  filter (fun child => Str.endswith (Concept.name child) "LineItems" = true)
         (Concept.child_concepts root)
  ≫= get_columns_from_table.

Lemma foldl_line_items (cols : dict dtype) (children : list Concept.t) :
  foldl (fun cols child_concept =>
           if Str.endswith (Concept.name child_concept) "LineItems"
           then dict_update cols (get_columns_from_table child_concept)
           else cols) cols children
  = dict_update cols
      (filter (fun child => Str.endswith (Concept.name child) "LineItems" = true)
              children ≫= get_columns_from_table).
Proof.
  revert cols. induction children as [|child children IH]; intros cols; [done|].
  cbn [foldl]. rewrite IH. rewrite filter_cons.
  destruct (Str.endswith (Concept.name child) "LineItems") eqn:E.
  - rewrite decide_True by done. by rewrite bind_cons, dict_update_app.
  - by rewrite decide_False by done.
Qed.

Lemma get_fact_table_eq schedule gen_filing_id root rest :
  Concept.child_concepts (LinkRole.concepts schedule) = root :: rest →
  get_fact_table schedule gen_filing_id
  = Ok {| axes := axis_names root;
          columns :=
            dict_update
              (if gen_filing_id
               then dict_set (base_columns (axis_names root)) "filing_id" py_int
               else base_columns (axis_names root))
              (line_item_columns root) |}.
Proof.
  intros Hroot. unfold get_fact_table. rewrite Hroot. cbn [mbind result_bind].
  by rewrite foldl_line_items.
Qed.

Lemma elem_of_line_item_columns root k :
  k ∈ (line_item_columns root).*1 ↔ k ∈ Concept.name <$> line_item_leaves root.
Proof.
  unfold line_item_columns, line_item_leaves.
  generalize (filter (fun child => Str.endswith (Concept.name child) "LineItems" = true)
                     (Concept.child_concepts root)).
  intros cs. induction cs as [|c cs IH]; [done|].
  rewrite !bind_cons, !fmap_app, !elem_of_app, IH.
  by rewrite <- elem_of_keys_get_columns_from_table.
Qed.

Lemma get_last_const {V} (names : list string) (v : V) k :
  get_last ((fun name => (name, v)) <$> names) k
  = if bool_decide (k ∈ names) then Some v else None.
Proof.
  induction names as [|name names IH]; [done|].
  rewrite fmap_cons. cbn [get_last]. rewrite IH.
  destruct (decide (k ∈ names)) as [Hin|Hnin].
  - rewrite !bool_decide_true; [done | by right | done].
  - rewrite (bool_decide_false (k ∈ names)) by done.
    destruct (decide (name = k)) as [->|Hne].
    + by rewrite bool_decide_true by left.
    + rewrite bool_decide_false; [done|].
      rewrite not_elem_of_cons. split; [congruence | done].
Qed.

Lemma elem_of_keys_base_columns axes k :
  k ∈ dict_keys (base_columns axes)
  ↔ k ∈ ["context_id"; "entity_id"; "start_date"; "end_date"; "instant"] ∨ k ∈ axes.
Proof.
  unfold base_columns. rewrite elem_of_dict_keys_of_items, fmap_app, elem_of_app.
  fold (dict_keys (dict_of_items ((fun axis : string => (axis, py_str)) <$> axes))).
  rewrite elem_of_dict_keys_of_items, <- list_fmap_compose.
  assert (Hid : (fst ∘ (fun axis : string => (axis, py_str))) <$> axes = axes).
  { clear. induction axes as [|a axes IH]; [done|]. rewrite fmap_cons. by rewrite IH. }
  by rewrite Hid.
Qed.

Lemma dict_get_base_columns_axis axes a :
  a ∈ axes → dict_get (base_columns axes) a = Some py_str.
Proof.
  intros Hin. unfold base_columns. rewrite dict_get_of_items, get_last_app.
  rewrite get_last_NoDup by apply NoDup_dict_keys_of_items.
  rewrite dict_get_of_items, get_last_const. by rewrite bool_decide_true.
Qed.

Lemma dict_get_set {V} (d : dict V) k v k' :
  dict_get (dict_set d k v) k' = if decide (k = k') then Some v else dict_get d k'.
Proof.
  destruct (decide (k = k')) as [->|Hne].
  - apply dict_get_set_eq.
  - by apply dict_get_set_ne.
Qed.

Lemma get_last_line_item_columns root k :
  get_last (line_item_columns root) k
  = get_last (leaf_column <$> line_item_leaves root) k.
Proof.
  unfold line_item_columns, line_item_leaves. rewrite fmap_bind_list.
  apply get_last_bind_ext, Forall_forall. intros child _.
  apply get_last_get_columns_from_table.
Qed.

Lemma dict_get_base_columns axes k :
  dict_get (base_columns axes) k
  = if bool_decide (k ∈ axes) then Some py_str
    else if bool_decide (k ∈ ["context_id"; "entity_id"; "start_date"; "end_date"])
    then Some py_str
    else if bool_decide (k = "instant") then Some np_bool8
    else None.
Proof.
  unfold base_columns. rewrite dict_get_of_items, get_last_app.
  rewrite get_last_NoDup by apply NoDup_dict_keys_of_items.
  rewrite dict_get_of_items, get_last_const.
  destruct (bool_decide (k ∈ axes)); [done|]. cbn [get_last].
  repeat (destruct (decide (_ = k)) as [<-|?]; [done|]).
  rewrite bool_decide_false, bool_decide_false; [done|congruence|].
  rewrite !elem_of_cons, elem_of_nil. intros [?|[?|[?|[?|[]]]]]; congruence.
Qed.

(** The type of a column of a derived schema: line items first, then the
    generated [filing_id], then the axes, then the fixed columns. *)
Lemma dict_get_fact_table_columns root (gen_filing_id : bool) k :
  dict_get
    (dict_update
       (if gen_filing_id
        then dict_set (base_columns (axis_names root)) "filing_id" py_int
        else base_columns (axis_names root))
       (line_item_columns root)) k
  = match get_last (leaf_column <$> line_item_leaves root) k with
    | Some d => Some d
    | None =>
        if gen_filing_id && bool_decide (k = "filing_id") then Some py_int
        else if bool_decide (k ∈ axis_names root) then Some py_str
        else if bool_decide
                  (k ∈ ["context_id"; "entity_id"; "start_date"; "end_date"])
        then Some py_str
        else if bool_decide (k = "instant") then Some np_bool8
        else None
    end.
Proof.
  rewrite dict_get_update, get_last_line_item_columns.
  destruct (get_last (leaf_column <$> line_item_leaves root) k); [done|].
  destruct gen_filing_id; cbn [andb].
  - rewrite dict_get_set. destruct (decide ("filing_id" = k)) as [<-|Hne].
    + by rewrite bool_decide_true.
    + rewrite (bool_decide_false (k = "filing_id")) by congruence.
      apply dict_get_base_columns.
  - apply dict_get_base_columns.
Qed.

Lemma get_last_leaf_column_None root k :
  k ∉ Concept.name <$> line_item_leaves root →
  get_last (leaf_column <$> line_item_leaves root) k = None.
Proof.
  intros Hn. apply get_last_None. by rewrite <- list_fmap_compose.
Qed.

(** C3, as the code has it. A role with a root concept gets a schema whose
    axes are the names of the root's Axis children and whose column map
    always holds entity_id together with both start_date and end_date and
    an instant column, and a column for every axis.  A date column is there
    only when an axis or a leaf below a LineItems concept is itself named
    date.  Unless a LineItems leaf bears the same name, entity_id,
    start_date, end_date and the columns of the axes are string-typed (but
    for one that is the generated filing_id), and the instant column is
    boolean, or string-typed when an axis is named instant. *)
Theorem fact_table_columns schedule gen_filing_id root rest :
  Concept.child_concepts (LinkRole.concepts schedule) = root :: rest →
  ∃ table,
    get_fact_table schedule gen_filing_id = Ok table
    ∧ axes table = axis_names root
    ∧ (∀ k, k ∈ ["entity_id"; "start_date"; "end_date"; "instant"] →
            k ∈ dict_keys (columns table))
    ∧ (∀ axis, axis ∈ axes table → axis ∈ dict_keys (columns table))
    ∧ ("date" ∈ dict_keys (columns table)
       ↔ "date" ∈ axes table ∨ "date" ∈ Concept.name <$> line_item_leaves root)
    ∧ (∀ k, k ∈ ["entity_id"; "start_date"; "end_date"] ++ axes table →
            k ∉ Concept.name <$> line_item_leaves root →
            (gen_filing_id = true → k ≠ "filing_id") →
            dict_get (columns table) k = Some py_str)
    ∧ ("instant" ∉ Concept.name <$> line_item_leaves root →
       dict_get (columns table) "instant"
       = Some (if bool_decide ("instant" ∈ axes table) then py_str else np_bool8)).
Proof.
  intros Hroot. eexists. split; [exact (get_fact_table_eq _ _ _ _ Hroot)|].
  cbn [axes columns]. split; [done|].
  set (cols1 := if gen_filing_id
                then dict_set (base_columns (axis_names root)) "filing_id" py_int
                else base_columns (axis_names root)).
  assert (Hkeys1 : ∀ k, k ∈ dict_keys cols1
                        ↔ (gen_filing_id = true ∧ k = "filing_id")
                          ∨ k ∈ dict_keys (base_columns (axis_names root))).
  { intros k. unfold cols1. destruct gen_filing_id.
    - rewrite elem_of_dict_keys_set. split; [intros [->|?]; [by left | by right]|].
      intros [[_ ->]|?]; [by left | by right].
    - split; [by right | by intros [[? _]|?]]. }
  split; [|split; [|split; [|split]]].
  - intros k Hk. apply elem_of_dict_keys_update. left. apply Hkeys1. right.
    apply elem_of_keys_base_columns. left. by right.
  - intros axis Hax. apply elem_of_dict_keys_update. left. apply Hkeys1. right.
    apply elem_of_keys_base_columns. by right.
  - rewrite elem_of_dict_keys_update, Hkeys1, elem_of_keys_base_columns.
    rewrite elem_of_line_item_columns. split.
    + intros [[[_ Hf] | [Hb | Ha]] | Hl]; [done | | by left | by right].
      exfalso. revert Hb. rewrite !elem_of_cons, elem_of_nil.
      intros [?|[?|[?|[?|[?|[]]]]]]; done.
    + intros [Ha | Hl]; [left; right; by right | by right].
  - intros k Hk Hnl Hnf. unfold cols1.
    rewrite dict_get_fact_table_columns, get_last_leaf_column_None by done.
    assert (gen_filing_id && bool_decide (k = "filing_id") = false) as ->.
    { destruct gen_filing_id; [|done]. cbn [andb].
      by rewrite bool_decide_false by (by apply Hnf). }
    destruct (decide (k ∈ axis_names root)) as [Hax|Hax].
    + by rewrite bool_decide_true.
    + rewrite bool_decide_false by done.
      apply elem_of_app in Hk as [Hk|Hk]; [|done].
      rewrite bool_decide_true; [done|]. by right.
  - intros Hnl. unfold cols1.
    rewrite dict_get_fact_table_columns, get_last_leaf_column_None by done.
    rewrite andb_false_r.
    destruct (bool_decide ("instant" ∈ axis_names root)); [done|].
    rewrite bool_decide_false; [by rewrite bool_decide_true|].
    rewrite !elem_of_cons, elem_of_nil. intros [?|[?|[?|[?|[]]]]]; done.
Qed.

(** ** Eligibility of a context for a table *)


Lemma check_dimensions_spec (self : Entity.t) (axes : list string) :
  Entity.check_dimensions self axes = true
  ↔ length (Entity.dimensions self) = length axes
    ∧ ∀ dim, dim ∈ Entity.dimensions self → Axis.name dim ∈ axes.
Proof.
  unfold Entity.check_dimensions.
  destruct (Nat.eqb_spec (length (Entity.dimensions self)) (length axes)) as [Hl|Hl];
    cbn [negb].
  - rewrite forallb_forall. split.
    + intros H. split; [done|]. intros dim Hdim%list_elem_of_In.
      specialize (H dim Hdim). by apply bool_decide_eq_true in H.
    + intros [_ H] dim Hdim%list_elem_of_In. apply bool_decide_eq_true. by apply H.
  - split; [done | by intros [? _]].
Qed.




(** ** The instance parser *)

Lemma bind_Ok {A B} (m : result A) (f : A → result B) (b : B) :
  m ≫= f = Ok b → ∃ a, m = Ok a ∧ f a = Ok b.
Proof. destruct m as [a|e]; [by exists a | done]. Qed.

Lemma dict_getitem_Ok {V} (d : dict V) k v :
  dict_getitem d k = Ok v ↔ dict_get d k = Some v.
Proof.
  unfold dict_getitem. destruct (dict_get d k); split; intros H; by inversion H.
Qed.

(** An element the loop of [parse] treats as a context, resp. as a fact. *)
Definition context_id_of (child : Element) : option string :=
  match dict_get (attrib child) "id" with
  | Some id => if Str.startswith id "c" then Some id else None
  | None => None
  end.

Definition is_fact_element (child : Element) : Prop :=
  ∃ id, dict_get (attrib child) "id" = Some id
        ∧ Str.startswith id "c" = false ∧ Str.startswith id "f" = true.

(** The ids of the context elements among [elems]. *)
Definition context_ids (elems : list Element) : list string :=
  omap context_id_of elems.

Lemma Context_from_xml_id env child context :
  Context.from_xml env child = Ok context →
  dict_get (attrib child) "id" = Some (Context.c_id context).
Proof.
  unfold Context.from_xml. intros (i & Hi & H)%bind_Ok.
  apply bind_Ok in H as (e_elem & _ & H). apply bind_Ok in H as (e & _ & H).
  apply bind_Ok in H as (p_elem & _ & H). apply bind_Ok in H as (p & _ & H).
  injection H as <-. by apply dict_getitem_Ok.
Qed.

(** What the loop of [parse] maintains, [seen] being the children it has
    gone through. *)
Record parse_inv (seen : list Element) (st : parse_state) : Prop :=
  mkParseInv {
    inv_nodup : NoDup (dict_keys st.1);
    inv_keys : dict_keys st.2 = dict_keys st.1;
    inv_ids : ∀ c, c ∈ dict_keys st.2 ↔ c ∈ context_ids seen;
    inv_contexts : ∀ c context,
      dict_get st.1 c = Some context → Context.c_id context = c;
    inv_facts : ∀ c facts fact,
      dict_get st.2 c = Some facts → fact ∈ facts →
      Fact.c_id fact = c
      ∧ ∃ child v, child ∈ seen ∧ is_fact_element child
                   ∧ Fact.from_xml child = Ok fact
                   ∧ text child = Some v ∧ Fact.value fact = Some v
  }.

Lemma parse_inv_init : parse_inv [] ([], []).
Proof. split; try done. apply NoDup_nil_2. Qed.

Lemma context_ids_snoc seen child :
  context_ids (seen ++ [child])
  = context_ids seen ++ match context_id_of child with
                        | Some id => [id]
                        | None => []
                        end.
Proof.
  unfold context_ids. rewrite omap_app. f_equal.
Qed.

Lemma parse_inv_skip seen child st :
  context_id_of child = None → parse_inv seen st → parse_inv (seen ++ [child]) st.
Proof.
  intros Hc [Hnd Hk Hi Hcx Hf]. split; [done | done | | done |].
  - intros c. rewrite context_ids_snoc, Hc, app_nil_r. apply Hi.
  - intros c facts fact Hget Hin. destruct (Hf c facts fact Hget Hin)
      as (Hcid & ch & v & Hch & Hrest).
    split; [done|]. exists ch, v. split; [|done]. apply elem_of_app. by left.
Qed.

Lemma parse_child_inv env seen child st st' :
  parse_inv seen st → parse_child env child st = Ok st' →
  parse_inv (seen ++ [child]) st'.
Proof.
  intros Hinv. destruct st as [context_dict fact_dict]. unfold parse_child.
  destruct (dict_get (attrib child) "id") as [id|] eqn:Hid.
  2:{ intros [= <-]. apply parse_inv_skip; [|done].
      unfold context_id_of. by rewrite Hid. }
  destruct (Str.startswith id "c") eqn:Hc.
  - intros (context & Hctx & [= <-])%bind_Ok.
    pose proof (Context_from_xml_id _ _ _ Hctx) as Hcid.
    rewrite Hid in Hcid. injection Hcid as Hcid.
    destruct Hinv as [Hnd Hk Hi Hcx Hf]. cbn [fst snd] in *. split; cbn [fst snd].
    + by apply NoDup_dict_keys_set.
    + rewrite !dict_keys_set, Hk. done.
    + intros c. rewrite elem_of_dict_keys_set, context_ids_snoc, elem_of_app, Hi.
      unfold context_id_of. rewrite Hid, Hc, list_elem_of_singleton, Hcid. tauto.
    + intros c context' Hget.
      destruct (decide (Context.c_id context = c)) as [<-|Hne].
      * rewrite dict_get_set_eq in Hget. by injection Hget as <-.
      * rewrite dict_get_set_ne in Hget by done. by apply Hcx.
    + intros c facts fact Hget Hin.
      destruct (decide (Context.c_id context = c)) as [<-|Hne].
      * rewrite dict_get_set_eq in Hget. injection Hget as <-.
        by apply elem_of_nil in Hin.
      * rewrite dict_get_set_ne in Hget by done.
        destruct (Hf c facts fact Hget Hin) as (Hfc & ch & v & Hch & Hrest).
        split; [done|]. exists ch, v. split; [|done]. apply elem_of_app. by left.
  - assert (Hnone : context_id_of child = None).
    { unfold context_id_of. by rewrite Hid, Hc. }
    destruct (Str.startswith id "f") eqn:Hfpre.
    2:{ intros [= <-]. by apply parse_inv_skip. }
    intros (fact & Hfact & H)%bind_Ok.
    destruct (Fact.value fact) as [v|] eqn:Hv.
    2:{ injection H as <-. by apply parse_inv_skip. }
    apply bind_Ok in H as (facts & Hfacts%dict_getitem_Ok & [= <-]).
    destruct Hinv as [Hnd Hk Hi Hcx Hf]. cbn [fst snd] in *.
    assert (Hin : Fact.c_id fact ∈ dict_keys fact_dict)
      by (by eapply dict_get_Some_keys).
    split; cbn [fst snd].
    + done.
    + rewrite dict_keys_set. by rewrite bool_decide_true.
    + intros c. rewrite context_ids_snoc, Hnone, app_nil_r, <- Hi.
      rewrite elem_of_dict_keys_set. split; [intros [->|?]; done | by right].
    + done.
    + intros c facts' fact' Hget Hin'.
      assert (Htext : text child = Some v).
      { unfold Fact.from_xml in Hfact. apply bind_Ok in Hfact as (uri & _ & Hfact).
        apply bind_Ok in Hfact as (cr & _ & Hfact). injection Hfact as <-.
        done. }
      destruct (decide (Fact.c_id fact = c)) as [<-|Hne].
      * rewrite dict_get_set_eq in Hget. injection Hget as <-.
        apply elem_of_app in Hin' as [Hold | Hnew%list_elem_of_singleton].
        -- destruct (Hf _ _ _ Hfacts Hold) as (Hfc & ch & v' & Hch & Hrest).
           split; [done|]. exists ch, v'. split; [|done]. apply elem_of_app. by left.
        -- subst fact'. split; [done|]. exists child, v.
           split; [apply elem_of_app; right; by apply list_elem_of_singleton|].
           split; [by exists id | done].
      * rewrite dict_get_set_ne in Hget by done.
        destruct (Hf c facts' fact' Hget Hin') as (Hfc & ch & v' & Hch & Hrest).
        split; [done|]. exists ch, v'. split; [|done]. apply elem_of_app. by left.
Qed.

Lemma parse_children_inv env children seen st st' :
  parse_inv seen st → parse_children env children st = Ok st' →
  parse_inv (seen ++ children) st'.
Proof.
  revert seen st. induction children as [|child rest IH]; intros seen st Hinv.
  - intros [= <-]. by rewrite app_nil_r.
  - cbn [parse_children]. intros (st1 & Hstep & Hrest)%bind_Ok.
    replace (seen ++ child :: rest) with ((seen ++ [child]) ++ rest)
      by (by rewrite <- app_assoc).
    eapply IH; [|done]. by eapply parse_child_inv.
Qed.

Lemma parse_Ok env path contexts facts url :
  parse env path = Ok (contexts, facts, url) →
  ∃ root, etree_parse env path = Ok root
          ∧ parse_children env (getchildren root) ([], []) = Ok (contexts, facts).
Proof.
  unfold parse. intros (root & Hroot & H)%bind_Ok. exists root. split; [done|].
  apply bind_Ok in H as (sr & _ & H). apply bind_Ok in H as (u & _ & H).
  apply bind_Ok in H as ([cd fd] & Hst & H). by injection H as <- <- <-.
Qed.

Lemma parse_children_app env pre post st :
  parse_children env (pre ++ post) st
  = parse_children env pre st ≫= parse_children env post.
Proof.
  revert st. induction pre as [|child pre IH]; intros st; [done|].
  cbn [app parse_children]. destruct (parse_child env child st) as [st1|e]; [|done].
  cbn [mbind result_bind]. apply IH.
Qed.

Lemma is_Raise_bind {A B} (m : result A) (f : A → result B) :
  (∀ a, m = Ok a → is_Raise (f a)) → is_Raise (m ≫= f).
Proof.
  destruct m as [a|e]; intros H; [by apply H | by exists e].
Qed.

(** The dictionaries [parse] returns have distinct keys. *)
Lemma parse_NoDup_keys env path contexts facts url :
  parse env path = Ok (contexts, facts, url) →
  NoDup (dict_keys contexts) ∧ NoDup (dict_keys facts).
Proof.
  intros (root & Hroot & Hloop)%parse_Ok.
  pose proof (parse_children_inv _ _ _ _ _ parse_inv_init Hloop) as Hinv.
  destruct Hinv as [Hnd Hk _ _ _]. cbn [fst snd] in *. by rewrite Hk.
Qed.

(** A fact element without text changes nothing; one with text joins the
    list of the context it names. *)
Lemma parse_child_fact env child st fact :
  is_fact_element child → Fact.from_xml child = Ok fact →
  parse_child env child st
  = match Fact.value fact with
    | Some _ =>
        facts ← dict_getitem st.2 (Fact.c_id fact);
        Ok (st.1, dict_set st.2 (Fact.c_id fact) (facts ++ [fact]))
    | None => Ok st
    end.
Proof.
  intros (id & Hid & Hc & Hf) Hfact. destruct st as [cd fd].
  unfold parse_child. rewrite Hid, Hc, Hf, Hfact. done.
Qed.

(** C6, as the code has it. A fact is appended to the list of its context
    only if the fact element has a text, which may be the empty string (the
    test is [value is not None]): an element with no text leaves the
    context and fact dictionaries as they are, and every fact of the
    dictionary that [parse] returns carries the text of the fact element it
    was read from. *)
Theorem parse_discards_facts_without_value env path :
  (∀ child st fact,
     is_fact_element child → Fact.from_xml child = Ok fact → text child = None →
     parse_child env child st = Ok st)
  ∧ (∀ contexts facts url,
       parse env path = Ok (contexts, facts, url) →
       ∀ c fs fact,
         dict_get facts c = Some fs → fact ∈ fs →
         ∃ v root child,
           Fact.value fact = Some v
           ∧ etree_parse env path = Ok root ∧ child ∈ getchildren root
           ∧ is_fact_element child ∧ Fact.from_xml child = Ok fact
           ∧ text child = Some v).
Proof.
  split.
  - intros child st fact Hfe Hfact Htext.
    rewrite (parse_child_fact _ _ _ _ Hfe Hfact).
    unfold Fact.from_xml in Hfact. apply bind_Ok in Hfact as (uri & _ & Hfact).
    apply bind_Ok in Hfact as (cr & _ & Hfact). injection Hfact as <-.
    cbn [Fact.value]. by rewrite Htext.
  - intros contexts facts url (root & Hroot & Hloop)%parse_Ok c fs fact Hget Hin.
    pose proof (parse_children_inv _ _ _ _ _ parse_inv_init Hloop) as Hinv.
    destruct (inv_facts _ _ Hinv c fs fact Hget Hin)
      as (_ & child & v & Hchild & Hfe & Hfact & Htext & Hval).
    exists v, root, child. done.
Qed.

(** C10, as the code has it. After a successful [parse] the fact dictionary
    has the keys of the context dictionary, in the same order, and every
    fact stands under the key its contextRef names.  A fact element with a
    text value whose contextRef is not the id of a context element before it
    makes [parse] raise; a fact element without text is dropped before its
    contextRef is looked at. *)
Theorem parse_fact_keys env path :
  (∀ contexts facts url,
     parse env path = Ok (contexts, facts, url) →
     dict_keys facts = dict_keys contexts
     ∧ (∀ c context, dict_get contexts c = Some context → Context.c_id context = c)
     ∧ (∀ c fs fact, dict_get facts c = Some fs → fact ∈ fs → Fact.c_id fact = c))
  ∧ (∀ root pre child post fact v,
       etree_parse env path = Ok root →
       getchildren root = pre ++ child :: post →
       is_fact_element child → Fact.from_xml child = Ok fact →
       Fact.value fact = Some v →
       Fact.c_id fact ∉ context_ids pre →
       is_Raise (parse env path)).
Proof.
  split.
  - intros contexts facts url (root & Hroot & Hloop)%parse_Ok.
    pose proof (parse_children_inv _ _ _ _ _ parse_inv_init Hloop) as Hinv.
    destruct Hinv as [Hnd Hk Hi Hcx Hf]. cbn [fst snd] in *.
    split; [done|]. split; [done|].
    intros c fs fact Hget Hin. by destruct (Hf c fs fact Hget Hin).
  - intros root pre child post fact v Hroot Hch Hfe Hfact Hval Hnin.
    unfold parse. rewrite Hroot. cbn [mbind result_bind].
    apply is_Raise_bind. intros sr _. apply is_Raise_bind. intros u _.
    apply is_Raise_bind. intros st Hst. exfalso.
    rewrite Hch, parse_children_app in Hst.
    apply bind_Ok in Hst as (st1 & Hpre & Hst). cbn [parse_children] in Hst.
    apply bind_Ok in Hst as (st2 & Hstep & _).
    pose proof (parse_children_inv _ _ _ _ _ parse_inv_init Hpre) as Hinv.
    rewrite (parse_child_fact _ _ _ _ Hfe Hfact), Hval in Hstep.
    apply bind_Ok in Hstep as (fs & Hfs%dict_getitem_Ok & _).
    apply Hnin. apply (inv_ids _ _ Hinv). by eapply dict_get_Some_keys.
Qed.

(** ** The row assembler *)

(** All columns have [n] rows. *)
Definition shaped (n : nat) (df : dict (list value)) : Prop :=
  Forall (fun kc => length kc.2 = n) df.

Lemma of_dict_shaped n df :
  shaped n df → df ≠ [] →
  pd.of_dict df = Ok {| pd.columns := df; pd.index := seq 0 n |}.
Proof.
  intros Hs Hne. unfold pd.of_dict. destruct df as [|[k0 c0] df]; [done|].
  assert (Hc0 : length c0 = n).
  { by apply (proj1 (Forall_forall _ _) Hs (k0, c0)); left. }
  assert (Hall : forallb (fun kc : string * list value =>
                            (length kc.2 =? length c0)%nat) ((k0, c0) :: df) = true).
  { apply forallb_forall. intros [k c] Hin%list_elem_of_In. cbn [snd].
    apply Nat.eqb_eq. rewrite Hc0.
    by apply (proj1 (Forall_forall _ _) Hs (k, c)). }
  by rewrite Hall, Hc0.
Qed.

Lemma elem_of_empty_frame cols n k col :
  (k, col) ∈ empty_frame cols n → col = replicate n VNone.
Proof.
  unfold empty_frame. intros Hin%elem_of_dict_of_items.
  by apply list_elem_of_fmap in Hin as ([k' d] & [= _ ->] & _).
Qed.

Lemma shaped_empty_frame cols n : shaped n (empty_frame cols n).
Proof.
  apply Forall_forall. intros [k c] ->%elem_of_empty_frame.
  cbn [snd]. apply length_replicate.
Qed.

Lemma elem_of_keys_empty_frame cols n k :
  k ∈ dict_keys (empty_frame cols n) ↔ k ∈ dict_keys cols.
Proof.
  unfold empty_frame. rewrite elem_of_dict_keys_of_items.
  unfold dict_keys. by rewrite <- list_fmap_compose.
Qed.

(** The frame for no context at all: the columns of the schema but
    [context_id], each without a cell, and no row label. *)
Definition frame_without_rows (cols : dict dtype) : pd.DataFrame :=
  {| pd.columns :=
       filter (fun kc => kc.1 ≠ "context_id")
              ((fun kc => (kc.1, [])) <$> empty_frame cols 0);
     pd.index := [] |}.

Lemma of_dict_empty_frame cols :
  pd.of_dict (empty_frame cols 0)
  = Ok {| pd.columns := empty_frame cols 0; pd.index := [] |}.
Proof.
  destruct (empty_frame cols 0) as [|kc df] eqn:E; [done|]. rewrite <- E.
  apply (of_dict_shaped 0); [apply shaped_empty_frame|]. by rewrite E.
Qed.

(** What [construct_dataframe] does, case by case: with a context in the
    dictionary the comprehension raises; with none, the frame has no row,
    and dropping [context_id] needs the schema to have that column. *)
Lemma construct_dataframe_eq contexts facts table filing_id :
  construct_dataframe contexts facts table filing_id
  = match contexts with
    | [] =>
        if dict_contains "context_id" (columns table)
        then Ok (frame_without_rows (columns table))
        else Raise (KeyError "context_id")
    | _ :: _ => Raise AttributeError
    end.
Proof.
  unfold construct_dataframe. destruct contexts as [|item contexts]; [|done].
  cbn [retained filterM mbind result_bind dict_of_items dict_update foldl length
       fill_rows].
  rewrite of_dict_empty_frame. cbn [mbind result_bind].
  unfold pd.drop, pd.dropna_all, dict_contains. cbn [pd.columns pd.index length seq].
  rewrite fmap_nil.
  assert (Hkeys : dict_keys ((fun kc : string * list value =>
                                (kc.1, pd.select [] kc.2)) <$> empty_frame (columns table) 0)
                  = dict_keys (empty_frame (columns table) 0)).
  { unfold dict_keys. by rewrite <- list_fmap_compose. }
  rewrite Hkeys.
  assert (Hiff : "context_id" ∈ dict_keys (empty_frame (columns table) 0)
                 ↔ "context_id" ∈ dict_keys (columns table))
    by apply elem_of_keys_empty_frame.
  destruct (decide ("context_id" ∈ dict_keys (columns table))) as [Hin|Hnin].
  - rewrite !bool_decide_true by tauto. done.
  - rewrite !bool_decide_false by tauto. done.
Qed.

Lemma elem_of_keys_frame_without_rows cols k :
  k ∈ dict_keys (pd.columns (frame_without_rows cols))
  ↔ k ∈ dict_keys cols ∧ k ≠ "context_id".
Proof.
  unfold frame_without_rows, dict_keys. cbn [pd.columns].
  rewrite list_elem_of_fmap. split.
  - intros ([k' col] & -> & [Hne Hin]%list_elem_of_filter). cbn [fst] in *.
    split; [|done]. apply (elem_of_keys_empty_frame _ 0).
    apply list_elem_of_fmap in Hin as ([k0 c0] & [= -> _] & Hin).
    apply list_elem_of_fmap. by exists (k0, c0).
  - intros [Hin Hne]. apply (elem_of_keys_empty_frame _ 0) in Hin.
    apply list_elem_of_fmap in Hin as ([k0 c0] & -> & Hin).
    exists (k0, []). split; [done|]. apply list_elem_of_filter. split; [done|].
    apply list_elem_of_fmap. by exists (k0, c0).
Qed.

Lemma frame_without_rows_cells cols k col :
  dict_get (pd.columns (frame_without_rows cols)) k = Some col → col = [].
Proof.
  intros Hget%dict_get_elem_of. unfold frame_without_rows in Hget.
  cbn [pd.columns] in Hget. apply list_elem_of_filter in Hget as [_ Hin].
  by apply list_elem_of_fmap in Hin as (kc & [= _ ->] & _).
Qed.

(** C5, on the code. A context dictionary that holds a context at all
    makes [construct_dataframe] raise [AttributeError] at the comprehension,
    whatever the contexts, the facts and the schema: no context comes as
    far as contributing a row. *)
Theorem row_assembler_raises_on_any_context
    c_id context contexts facts table filing_id :
  construct_dataframe ((c_id, context) :: contexts) facts table filing_id
  = Raise AttributeError.
Proof. by rewrite construct_dataframe_eq. Qed.



(** ** The orchestrator *)


(** Whatever happens before the writes leaves the store as it was. *)
Lemma extract_raise_engine env taxonomy instance_paths engine batch_size threads
    gen_filing_id e engine' :
  extract env taxonomy instance_paths engine batch_size threads gen_filing_id
  = (engine', Raise e) →
  engine' = engine.
Proof.
  unfold extract. case_match; [done|]. by intros [= <- _].
Qed.


(** * Worked examples

    A small filing, after the examples of the specification: context [c1]
    (entity [E1], instant 2022-12-31, no axes), context [c2] (the same
    entity over 2022 on the axis [UtilityTypeAxis]), and facts for both. *)

Definition sample_ns : nsmap_t :=
  [(None, "http://www.xbrl.org/2003/instance");
   (Some "link", "http://www.xbrl.org/2003/linkbase");
   (Some "xbrldi", "http://xbrl.org/2006/xbrldi");
   (Some "ferc", "http://ferc.gov/form")].

Definition xbrli (local : string) : string :=
  "{http://www.xbrl.org/2003/instance}" +:+ local.

Definition elem (tag : string) (prefix : option string) (attrib : dict string)
    (text : option string) (children : list Element) : Element :=
  mkElement tag prefix sample_ns attrib text children.

Definition schema_ref_elem : Element :=
  elem "{http://www.xbrl.org/2003/linkbase}schemaRef" (Some "link")
       [(TAXONOMY_PREFIX, "https://ferc.gov/form1.xsd")] None [].

Definition explicit_member (dimension member : string) : Element :=
  elem "{http://xbrl.org/2006/xbrldi}explicitMember" (Some "xbrldi")
       [("dimension", dimension)] (Some member) [].

Definition context_elem (id identifier : string) (members period : list Element)
  : Element :=
  elem (xbrli "context") None [("id", id)] None
    [elem (xbrli "entity") None [] None
       (elem (xbrli "identifier") None [] (Some identifier) []
        :: match members with
           | [] => []
           | _ => [elem (xbrli "segment") None [] None members]
           end);
     elem (xbrli "period") None [] None period].

Definition instant_elems (day : string) : list Element :=
  [elem (xbrli "instant") None [] (Some day) []].

Definition duration_elems (first last : string) : list Element :=
  [elem (xbrli "startDate") None [] (Some first) [];
   elem (xbrli "endDate") None [] (Some last) []].

Definition fact_elem (id name context_ref : string) (text : option string)
  : Element :=
  elem ("{http://ferc.gov/form}" +:+ name) (Some "ferc")
       [("id", id); ("contextRef", context_ref)] text [].

Definition document (children : list Element) : Element :=
  elem (xbrli "xbrl") None [] None (schema_ref_elem :: children).

Definition c1_elem : Element := context_elem "c1" "E1" [] (instant_elems "2022-12-31").

Definition c2_elem : Element :=
  context_elem "c2" "E1" [explicit_member "ferc:UtilityTypeAxis" "Electric"]
               (duration_elems "2022-01-01" "2022-12-31").

(** A well-formed filing; [f3] has no text. *)
Definition good_document : Element :=
  document [c1_elem; c2_elem;
            fact_elem "f1" "Assets" "c1" (Some "1000");
            fact_elem "f2" "Revenue" "c2" (Some "5");
            fact_elem "f3" "Liabilities" "c1" None].

(** A filing whose fact [f1] names a context that is not there. *)
Definition bad_document : Element :=
  document [c1_elem; fact_elem "f1" "Assets" "c9" (Some "1000")].

(** The same dangling reference on a fact without text. *)
Definition dangling_document : Element :=
  document [c1_elem; fact_elem "f1" "Assets" "c9" None].

Definition sample_dates : dict date :=
  [("2022-01-01", mkDate 2022 1 1); ("2022-12-31", mkDate 2022 12 31)].

Definition sample_files : dict Element :=
  [("good.xml", good_document); ("bad.xml", bad_document);
   ("dangling.xml", dangling_document)].

Definition env_of (files : dict Element) : Env :=
  {| etree_parse := fun path => match dict_get files path with
                                | Some root => Ok root
                                | None => Raise OSError
                                end;
     validate_date := dict_get sample_dates |}.

Definition sample_env : Env := env_of sample_files.

Definition sample_c1 : Context.t :=
  {| Context.c_id := "c1";
     Context.entity := {| Entity.identifier := "E1"; Entity.dimensions := [] |};
     Context.period := {| Period.instant := true; Period.start_date := None;
                          Period.end_date := mkDate 2022 12 31 |} |}.

Definition sample_c2 : Context.t :=
  {| Context.c_id := "c2";
     Context.entity :=
       {| Entity.identifier := "E1";
          Entity.dimensions :=
            [{| Axis.name := "UtilityTypeAxis"; Axis.value := "Electric";
                Axis.dimension_type := EXPLICIT |}] |};
     Context.period := {| Period.instant := false;
                          Period.start_date := Some (mkDate 2022 1 1);
                          Period.end_date := mkDate 2022 12 31 |} |}.

Definition sample_contexts : dict Context.t := [("c1", sample_c1); ("c2", sample_c2)].

Definition assets_fact : Fact.t :=
  {| Fact.name := "Assets"; Fact.c_id := "c1"; Fact.value := Some "1000" |}.

Definition revenue_fact : Fact.t :=
  {| Fact.name := "Revenue"; Fact.c_id := "c2"; Fact.value := Some "5" |}.

Definition sample_facts : dict (list Fact.t) :=
  [("c1", [assets_fact]); ("c2", [revenue_fact])].

Example parse_good_document :
  parse sample_env "good.xml"
  = Ok (sample_contexts, sample_facts, "https://ferc.gov/form1.xsd").
Proof. by vm_compute. Qed.

(** A role as a taxonomy gives it: an axis and a line-items subtree with a
    group in it. *)
Definition sample_root : Concept.t :=
  Concept.mk "BalanceSheetTable" "Table"
    [Concept.mk "UtilityTypeAxis" "Axis" [];
     Concept.mk "BalanceSheetLineItems" "LineItems"
       [Concept.mk "Assets" "Monetary" [];
        Concept.mk "RatesAbstract" "Abstract"
          [Concept.mk "Rate" "PerUnit" []; Concept.mk "Remarks" "Text" []]]].

Definition sample_role : LinkRole.t :=
  {| LinkRole.definition := "001 - Schedule - Balance Sheet";
     LinkRole.concepts := Concept.mk "BalanceSheetAbstract" "Abstract" [sample_root] |}.

Definition sample_taxonomy : Taxonomy.t := {| Taxonomy.roles := [sample_role] |}.

Definition sample_table : TableInfo :=
  {| axes := ["UtilityTypeAxis"];
     columns := [("context_id", py_str); ("entity_id", py_str);
                 ("start_date", py_str); ("end_date", py_str);
                 ("instant", np_bool8); ("UtilityTypeAxis", py_str);
                 ("Assets", np_int64); ("Rate", np_float64);
                 ("Remarks", py_str)] |}.

Example get_fact_table_sample : get_fact_table sample_role false = Ok sample_table.
Proof. by vm_compute. Qed.

(** Membership, distinctness and other decidable facts about the sample
    data, by evaluation. *)
Ltac by_evaluation :=
  match goal with
  | |- ?P => apply (bool_decide_unpack P); vm_compute; exact I
  end.

(** ** C1: the batches of [XbrlDb] *)

Definition one_row (v : string) : pd.DataFrame :=
  {| pd.columns := [("value", [VStr v])]; pd.index := [0] |}.

Definition rows (vs : list string) : pd.DataFrame :=
  {| pd.columns := [("value", VStr <$> vs)]; pd.index := seq 0 (length vs) |}.

(** The frames of the [k]-th instance for the one table [t]. *)
Definition instance_frames (k : string) : dict (pd.DataFrame * pd.DataFrame) :=
  [("t", (one_row ("duration row " +:+ k), one_row ("instant row " +:+ k)))].

(** The frames of an instance join the lists of [dfs], and no call takes
    any away. *)
Lemma append_instance_keeps_frames self instance :
  XbrlDb.dfs (XbrlDb.append_instance self instance).1
  = XbrlDb.accumulate (XbrlDb.dfs self) instance.
Proof.
  unfold XbrlDb.append_instance.
  destruct (XbrlDb.batch_finished _) as [finished|e]; [|done].
  destruct (if finished then _ else _) as [engine' [[]|e]]; done.
Qed.

(** The store is written to exactly when the count of instances reaches a
    multiple of [batch_size] or [num_instances], and then with all the
    frames [dfs] holds. *)
Lemma append_instance_flushes self instance :
  XbrlDb.batch_size self ≠ 0%Z →
  XbrlDb.engine (XbrlDb.append_instance self instance).1
  = if ((XbrlDb.counter self mod XbrlDb.batch_size self =? 0)%Z
        || (XbrlDb.counter self =? XbrlDb.num_instances self)%Z)
    then (XbrlDb.flush (XbrlDb.accumulate (XbrlDb.dfs self) instance)
                       (XbrlDb.engine self)).1
    else XbrlDb.engine self.
Proof.
  intros Hbs. unfold XbrlDb.append_instance, XbrlDb.batch_finished.
  cbn [XbrlDb.batch_size XbrlDb.counter XbrlDb.num_instances XbrlDb.dfs
       XbrlDb.engine].
  rewrite decide_False by done.
  destruct ((XbrlDb.counter self mod XbrlDb.batch_size self =? 0)%Z
            || (XbrlDb.counter self =? XbrlDb.num_instances self)%Z).
  - destruct (XbrlDb.flush _ _) as [engine' [[]|e]]; done.
  - done.
Qed.

(** C1. With [batch_size = 2] and three instances the store is written to
    after the second and after the third instance, twice per table; but the
    lists of frames are never emptied, so the second write repeats the rows
    of the first two instances: they reach the table twice. *)
Theorem xbrldb_second_flush_repeats_rows :
  let run := XbrlDb.append_all (XbrlDb.init [] 2 3)
               [instance_frames "1"; instance_frames "2"; instance_frames "3"] in
  run.2 = Ok tt
  ∧ XbrlDb.counter run.1 = 4%Z
  ∧ XbrlDb.engine run.1
    = [("t - duration", rows ["duration row 1"; "duration row 2"]);
       ("t - instant", rows ["instant row 1"; "instant row 2"]);
       ("t - duration",
        rows ["duration row 1"; "duration row 2"; "duration row 3"]);
       ("t - instant", rows ["instant row 1"; "instant row 2"; "instant row 3"])]
  ∧ XbrlDb.dfs run.1
    = [("t", ([one_row "duration row 1"; one_row "duration row 2";
               one_row "duration row 3"],
              [one_row "instant row 1"; one_row "instant row 2";
               one_row "instant row 3"]))].
Proof. by vm_compute. Qed.

(** ** C2: a failing instance *)




(** ** C3: the columns of a derived schema *)

Lemma fact_table_columns_witness :
  Concept.child_concepts (LinkRole.concepts sample_role) = [sample_root]
  ∧ ∃ table,
      get_fact_table sample_role true = Ok table
      ∧ axes table = axis_names sample_root
      ∧ (∀ k, k ∈ ["entity_id"; "start_date"; "end_date"; "instant"] →
              k ∈ dict_keys (columns table))
      ∧ (∀ axis, axis ∈ axes table → axis ∈ dict_keys (columns table))
      ∧ ("date" ∈ dict_keys (columns table)
         ↔ "date" ∈ axes table
           ∨ "date" ∈ Concept.name <$> line_item_leaves sample_root)
      ∧ (∀ k, k ∈ ["entity_id"; "start_date"; "end_date"] ++ axes table →
              k ∉ Concept.name <$> line_item_leaves sample_root →
              (true = true → k ≠ "filing_id") →
              dict_get (columns table) k = Some py_str)
      ∧ ("instant" ∉ Concept.name <$> line_item_leaves sample_root →
         dict_get (columns table) "instant"
         = Some (if bool_decide ("instant" ∈ axes table)
                 then py_str else np_bool8)).
Proof.
  split; [reflexivity|].
  exact (fact_table_columns sample_role true sample_root [] eq_refl).
Defined.

(** A role whose line items hold a concept named [date]. *)
Definition dated_role : LinkRole.t :=
  {| LinkRole.definition := "002 - Schedule - Filing Dates";
     LinkRole.concepts :=
       Concept.mk "FilingAbstract" "Abstract"
         [Concept.mk "FilingTable" "Table"
            [Concept.mk "FilingLineItems" "LineItems"
               [Concept.mk "date" "Date" []]]] |}.

(** Its schema holds the single date column and the pair of period columns
    at once. *)
Lemma fact_table_with_both_date_forms :
  ∃ table,
    get_fact_table dated_role false = Ok table
    ∧ "entity_id" ∈ dict_keys (columns table)
    ∧ "date" ∈ dict_keys (columns table)
    ∧ "start_date" ∈ dict_keys (columns table)
    ∧ "end_date" ∈ dict_keys (columns table).
Proof.
  eexists. split; [vm_compute; reflexivity|]. cbn [columns].
  repeat split; by_evaluation.
Qed.

(** A role with an axis that is named [instant]: the column of that name
    is typed as the axis. *)
Definition instant_axis_role : LinkRole.t :=
  {| LinkRole.definition := "004 - Schedule - Instants";
     LinkRole.concepts :=
       Concept.mk "InstantAbstract" "Abstract"
         [Concept.mk "InstantTable" "Table"
            [Concept.mk "instant" "Axis" [];
             Concept.mk "InstantLineItems" "LineItems"
               [Concept.mk "Assets" "Monetary" []]]] |}.

Example fact_table_with_instant_axis :
  ∃ table,
    get_fact_table instant_axis_role false = Ok table
    ∧ dict_get (columns table) "instant" = Some py_str.
Proof. eexists. split; by vm_compute. Qed.

(** ** C4: the axis test *)





(** ** C5: a context with a matching fact *)

(** Facts for the sample contexts with one, under [c2], that the sample
    schema has a column for. *)
Definition electric_assets_fact : Fact.t :=
  {| Fact.name := "Assets"; Fact.c_id := "c2"; Fact.value := Some "5" |}.

Definition electric_facts : dict (list Fact.t) :=
  [("c2", [electric_assets_fact])].

(** The context [c2] carries exactly the axis of the sample schema and has
    a fact for its column [Assets]; the assembler raises. *)
Example construct_dataframe_matching_context :
  Context.check_dimensions sample_c2 (axes sample_table) = true
  ∧ Fact.name electric_assets_fact ∈ dict_keys (columns sample_table)
  ∧ construct_dataframe [("c2", sample_c2)] electric_facts sample_table None
    = Raise AttributeError.
Proof. split; [reflexivity|]. split; [by_evaluation | reflexivity]. Qed.

(** ** C6 and C10: the fact dictionary *)

Lemma parse_discards_facts_without_value_witness :
  parse sample_env "good.xml"
  = Ok (sample_contexts, sample_facts, "https://ferc.gov/form1.xsd")
  ∧ dict_get sample_facts "c1" = Some [assets_fact]
  ∧ (∃ v root child,
       Fact.value assets_fact = Some v
       ∧ etree_parse sample_env "good.xml" = Ok root ∧ child ∈ getchildren root
       ∧ is_fact_element child ∧ Fact.from_xml child = Ok assets_fact
       ∧ text child = Some v)
  ∧ parse_child sample_env (fact_elem "f3" "Liabilities" "c1" None)
                (sample_contexts, sample_facts)
    = Ok (sample_contexts, sample_facts).
Proof.
  assert (H1 : parse sample_env "good.xml"
               = Ok (sample_contexts, sample_facts, "https://ferc.gov/form1.xsd"))
    by (vm_compute; reflexivity).
  split; [exact H1|]. split; [reflexivity|]. split.
  - apply (proj2 (parse_discards_facts_without_value sample_env "good.xml")
                 _ _ _ H1 "c1" [assets_fact] assets_fact); [reflexivity | left].
  - apply (proj1 (parse_discards_facts_without_value sample_env "good.xml")
                 _ _ {| Fact.name := "Liabilities"; Fact.c_id := "c1";
                        Fact.value := None |}).
    + exists "f3". by vm_compute.
    + by vm_compute.
    + reflexivity.
Defined.

(** A filing whose fact [f1] has a text, the empty string. *)
Definition blank_document : Element :=
  document [c1_elem; fact_elem "f1" "Assets" "c1" (Some "")].

Definition blank_env : Env := env_of [("blank.xml", blank_document)].

(** The fact is appended all the same: its value is not [None]. *)
Lemma parse_keeps_fact_with_empty_text :
  ∃ root child fact,
    etree_parse blank_env "blank.xml" = Ok root
    ∧ child ∈ getchildren root
    ∧ is_fact_element child ∧ Fact.from_xml child = Ok fact
    ∧ text child = Some "" ∧ Fact.value fact = Some ""
    ∧ parse blank_env "blank.xml"
      = Ok ([("c1", sample_c1)], [("c1", [fact])], "https://ferc.gov/form1.xsd").
Proof.
  exists blank_document, (fact_elem "f1" "Assets" "c1" (Some "")),
    {| Fact.name := "Assets"; Fact.c_id := "c1"; Fact.value := Some "" |}.
  split; [by vm_compute|]. split.
  { unfold blank_document, document. cbn [getchildren elem]. do 3 constructor. }
  split; [exists "f1"; by vm_compute|].
  repeat (split; [by vm_compute|]). by vm_compute.
Qed.

(** The fact without text that names the missing context [c9] does not
    stop [parse]. *)
Lemma dangling_fact_without_value_is_ignored :
  ∃ root pre child post fact,
    etree_parse sample_env "dangling.xml" = Ok root
    ∧ getchildren root = pre ++ child :: post
    ∧ is_fact_element child ∧ Fact.from_xml child = Ok fact
    ∧ Fact.c_id fact = "c9" ∧ ("c9" ∉ context_ids pre)
    ∧ parse sample_env "dangling.xml"
      = Ok ([("c1", sample_c1)], [("c1", [])], "https://ferc.gov/form1.xsd").
Proof.
  exists dangling_document, [schema_ref_elem; c1_elem],
    (fact_elem "f1" "Assets" "c9" None), [],
    {| Fact.name := "Assets"; Fact.c_id := "c9"; Fact.value := None |}.
  split; [by vm_compute|]. split; [by vm_compute|]. split.
  { exists "f1". by vm_compute. }
  split; [by vm_compute|]. split; [reflexivity|]. split; [by_evaluation|].
  by vm_compute.
Qed.

Lemma parse_fact_keys_witness :
  parse sample_env "good.xml"
  = Ok (sample_contexts, sample_facts, "https://ferc.gov/form1.xsd")
  ∧ dict_keys sample_facts = dict_keys sample_contexts
  ∧ is_Raise (parse sample_env "bad.xml").
Proof.
  assert (H1 : parse sample_env "good.xml"
               = Ok (sample_contexts, sample_facts, "https://ferc.gov/form1.xsd"))
    by (vm_compute; reflexivity).
  split; [exact H1|]. split.
  - exact (proj1 (proj1 (parse_fact_keys sample_env "good.xml") _ _ _ H1)).
  - apply (proj2 (parse_fact_keys sample_env "bad.xml")
             bad_document [schema_ref_elem; c1_elem]
             (fact_elem "f1" "Assets" "c9" (Some "1000")) []
             {| Fact.name := "Assets"; Fact.c_id := "c9"; Fact.value := Some "1000" |}
             "1000").
    + by vm_compute.
    + by vm_compute.
    + exists "f1". by vm_compute.
    + by vm_compute.
    + reflexivity.
    + by_evaluation.
Defined.

(** ** C7: the rows of a returned frame *)


(** ** C8: the walk over a line-items subtree *)

Definition line_items : Concept.t :=
  Concept.mk "BalanceSheetLineItems" "LineItems"
    [Concept.mk "Assets" "Monetary" [];
     Concept.mk "RatesAbstract" "Abstract"
       [Concept.mk "Rate" "PerUnit" []; Concept.mk "Remarks" "Text" []]].

Lemma line_item_walk_witness :
  NoDup (Concept.name <$> (Concept.child_concepts line_items ≫= leaves))
  ∧ get_columns_from_table line_items
    = leaf_column <$> (Concept.child_concepts line_items ≫= leaves)
  ∧ leaf_column <$> (Concept.child_concepts line_items ≫= leaves)
    = [("Assets", np_int64); ("Rate", np_float64); ("Remarks", py_str)].
Proof.
  assert (H1 : NoDup (Concept.name
                        <$> (Concept.child_concepts line_items ≫= leaves)))
    by by_evaluation.
  split; [exact H1|]. split; [|reflexivity].
  destruct line_item_walk as (Hwalk & _).
  exact (proj2 (proj2 (proj2 (proj2 (Hwalk line_items)))) H1).
Defined.

(** A LineItems concept without children: the walk yields no column. *)
Example get_columns_from_table_childless :
  get_columns_from_table (Concept.mk "EmptyLineItems" "LineItems" []) = [].
Proof. reflexivity. Qed.

(** * Further properties of the code *)

(** ** instance.py: a run of [XbrlDb] *)

(** The frame [pd.concat] returns for a list of frames that is not empty. *)
Definition concat_frames (objs : list pd.DataFrame) : pd.DataFrame :=
  let names := pd.first_seen [] (objs ≫= (fun f => dict_keys (pd.columns f))) in
  {| pd.columns := (fun k => (k, objs ≫= (fun f => pd.cells_of f k))) <$> names;
     pd.index := seq 0 (sum_list ((fun f => length (pd.index f)) <$> objs)) |}.

(** The [to_sql] calls of one pass of the second loop of
    [append_instance]. *)
Definition writes (dfs : dict (list pd.DataFrame * list pd.DataFrame)) : Engine :=
  dfs ≫= (fun item =>
            [(item.1 +:+ " - duration", concat_frames item.2.1);
             (item.1 +:+ " - instant", concat_frames item.2.2)]).

(** Every key of [dfs] holds at least one frame of either kind. *)
Definition full (dfs : dict (list pd.DataFrame * list pd.DataFrame)) : Prop :=
  Forall (fun item => item.2.1 ≠ [] ∧ item.2.2 ≠ []) dfs.

(** The numbers of the instances (counted from one) after which the test
    of [append_instance] holds. *)
Definition flush_points (batch_size num_instances : Z) (first count : nat)
  : list nat :=
  filter (fun k => ((Z.of_nat k mod batch_size =? 0)%Z
                    || (Z.of_nat k =? num_instances)%Z) = true)
         (seq first count).

Lemma concat_nonempty objs : objs ≠ [] → pd.concat objs = Ok (concat_frames objs).
Proof. by destruct objs. Qed.

Lemma Forall_dict_set {V} (P : string * V → Prop) (d : dict V) k v :
  Forall P d → P (k, v) → Forall P (dict_set d k v).
Proof.
  intros Hd Hv. induction Hd as [|[k' v'] d Hx Hd IH]; cbn [dict_set].
  - by repeat constructor.
  - destruct (decide (k' = k)) as [->|]; constructor; auto.
Qed.

Lemma full_accumulate dfs instance : full dfs → full (XbrlDb.accumulate dfs instance).
Proof.
  unfold XbrlDb.accumulate. revert dfs.
  induction instance as [|item instance IH]; intros dfs Hfull; [done|].
  cbn [foldl]. apply IH, Forall_dict_set; [done|].
  cbn. split; intros [_ ?]%app_eq_nil; done.
Qed.

Lemma flush_full items engine :
  full items → XbrlDb.flush items engine = (engine ++ writes items, Ok tt).
Proof.
  intros Hfull. revert engine.
  induction Hfull as [|[key [duration instant]] items [Hd Hi] _ IH]; intros engine.
  - by rewrite app_nil_r.
  - cbn in Hd, Hi. cbn [XbrlDb.flush].
    rewrite !concat_nonempty by done. rewrite IH. unfold to_sql, writes.
    cbn. by rewrite <- !app_assoc.
Qed.

Lemma flush_points_cons batch_size num_instances first count :
  flush_points batch_size num_instances first (S count)
  = (if ((Z.of_nat first mod batch_size =? 0)%Z
         || (Z.of_nat first =? num_instances)%Z)
     then [first] else [])
    ++ flush_points batch_size num_instances (S first) count.
Proof.
  unfold flush_points. cbn [seq]. rewrite filter_cons.
  destruct (_ || _); by rewrite ?decide_True, ?decide_False by done.
Qed.

Lemma elem_of_flush_points batch_size num_instances first count k :
  k ∈ flush_points batch_size num_instances first count →
  first ≤ k < first + count.
Proof. unfold flush_points. intros [_ ?%elem_of_seq]%list_elem_of_filter. lia. Qed.

(** In a run that starts with every list of [dfs] non-empty and a batch
    size other than zero, no [pd.concat] of the second loop meets an empty
    list and the test never divides by zero; each pass of the second loop
    asks the store for what [dfs] holds by then. *)
Lemma append_all_full self (c : nat) instances :
  XbrlDb.batch_size self ≠ 0%Z →
  full (XbrlDb.dfs self) →
  XbrlDb.counter self = Z.of_nat c →
  XbrlDb.append_all self instances
  = ({| XbrlDb.engine :=
          XbrlDb.engine self
          ++ (flush_points (XbrlDb.batch_size self) (XbrlDb.num_instances self)
                           c (length instances)
              ≫= fun k => writes (foldl XbrlDb.accumulate (XbrlDb.dfs self)
                                        (take (S k - c) instances)));
        XbrlDb.batch_size := XbrlDb.batch_size self;
        XbrlDb.num_instances := XbrlDb.num_instances self;
        XbrlDb.dfs := foldl XbrlDb.accumulate (XbrlDb.dfs self) instances;
        XbrlDb.counter := Z.of_nat (c + length instances) |}, Ok tt).
Proof.
  revert self c.
  induction instances as [|instance instances IH]; intros self c Hbs Hfull Hc.
  - cbn. rewrite app_nil_r, Nat.add_0_r, <- Hc. by destruct self.
  - cbn [XbrlDb.append_all length].
    pose proof (full_accumulate _ instance Hfull) as Hfull'.
    unfold XbrlDb.append_instance, XbrlDb.batch_finished.
    cbn [XbrlDb.batch_size XbrlDb.counter XbrlDb.num_instances XbrlDb.dfs
         XbrlDb.engine].
    rewrite decide_False by done.
    rewrite flush_points_cons, bind_app, Hc.
    set (finished := ((Z.of_nat c mod _ =? 0)%Z || _)).
    set (tail := flush_points _ _ (S c) _ ≫= _).
    assert (tail
            = flush_points (XbrlDb.batch_size self) (XbrlDb.num_instances self)
                (S c) (length instances)
              ≫= fun k => writes (foldl XbrlDb.accumulate
                                    (XbrlDb.accumulate (XbrlDb.dfs self) instance)
                                    (take (S k - S c) instances))) as ->.
    { apply Forall_bind_ext, Forall_forall. intros k Hk%elem_of_flush_points.
      replace (S k - c) with (S (S k - S c)) by lia. done. }
    destruct finished.
    + rewrite flush_full by done.
      rewrite IH with (c := S c); [|done|done|cbn; lia].
      cbn [XbrlDb.batch_size XbrlDb.counter XbrlDb.num_instances XbrlDb.dfs
           XbrlDb.engine mbind list_bind].
      replace (S c - c) with 1 by lia. cbn [take foldl]. rewrite app_nil_r.
      f_equal. f_equal; [by rewrite <- app_assoc|lia].
    + rewrite IH with (c := S c); [|done|done|cbn; lia].
      cbn [XbrlDb.batch_size XbrlDb.counter XbrlDb.num_instances XbrlDb.dfs
           XbrlDb.engine mbind list_bind app].
      f_equal. f_equal. lia.
Qed.

(** The pairs of frames an instance holds for a key. *)
Definition frames_of (key : string) (instance : dict (pd.DataFrame * pd.DataFrame))
  : list (pd.DataFrame * pd.DataFrame) :=
  snd <$> filter (fun item => item.1 = key) instance.

Lemma accumulate_app dfs instance1 instance2 :
  XbrlDb.accumulate dfs (instance1 ++ instance2)
  = XbrlDb.accumulate (XbrlDb.accumulate dfs instance1) instance2.
Proof. apply foldl_app. Qed.

Lemma foldl_accumulate dfs instances :
  foldl XbrlDb.accumulate dfs instances
  = XbrlDb.accumulate dfs (mjoin instances).
Proof.
  revert dfs. induction instances as [|instance instances IH]; intros dfs; [done|].
  cbn [foldl mjoin list_join]. by rewrite accumulate_app, IH.
Qed.

Lemma dict_get_accumulate dfs instance key :
  dict_get (XbrlDb.accumulate dfs instance) key
  = match frames_of key instance with
    | [] => dict_get dfs key
    | frames =>
        let cur := default ([], []) (dict_get dfs key) in
        Some (cur.1 ++ frames.*1, cur.2 ++ frames.*2)
    end.
Proof.
  unfold XbrlDb.accumulate, frames_of. revert dfs.
  induction instance as [|[k [d i]] instance IH]; intros dfs; [done|].
  cbn [foldl fst snd]. rewrite IH, filter_cons. cbn [fst].
  rewrite dict_get_set.
  destruct (decide (k = key)) as [->|Hne].
  - cbn [fmap list_fmap snd default fst].
    destruct (snd <$> filter _ instance) as [|frame frames].
    + done.
    + cbn [fmap list_fmap snd default fst id]. by rewrite <- !app_assoc.
  - done.
Qed.

(** X1. What the store has been asked to do when a run of a fresh
    [XbrlDb] returns: after each instance whose number is a multiple of
    [batch_size] or equal to [num_instances], to append the concatenated
    frames of ALL instances fed so far (not only of those since the
    previous write), two tables per key; and the counter stands at one
    more than the number of instances. *)
Theorem xbrldb_run engine batch_size num_instances instances :
  (XbrlDb.append_all (XbrlDb.init engine batch_size num_instances) instances).2
  = Ok tt →
  (XbrlDb.append_all (XbrlDb.init engine batch_size num_instances) instances).1
  = {| XbrlDb.engine :=
         engine
         ++ (flush_points batch_size num_instances 1 (length instances)
             ≫= fun k => writes (foldl XbrlDb.accumulate [] (take k instances)));
       XbrlDb.batch_size := batch_size;
       XbrlDb.num_instances := num_instances;
       XbrlDb.dfs := foldl XbrlDb.accumulate [] instances;
       XbrlDb.counter := Z.of_nat (S (length instances)) |}.
Proof.
  destruct (decide (batch_size = 0%Z)) as [->|Hbs].
  - destruct instances as [|instance rest]; [|done]. intros _. cbn.
    by rewrite app_nil_r.
  - intros _.
    rewrite append_all_full with (c := 1); [|done|by constructor|done].
    cbn [fst XbrlDb.init XbrlDb.batch_size XbrlDb.counter XbrlDb.num_instances
         XbrlDb.dfs XbrlDb.engine].
    do 2 f_equal. apply Forall_bind_ext, Forall_forall.
    intros k Hk%elem_of_flush_points. by replace (S k - 1) with k by lia.
Qed.

Lemma frames_of_join key instances :
  frames_of key (mjoin instances) = instances ≫= frames_of key.
Proof.
  unfold frames_of. induction instances as [|instance instances IH]; [done|].
  change (mjoin (instance :: instances)) with (instance ++ mjoin instances).
  cbn [mbind list_bind]. by rewrite filter_app, fmap_app, IH.
Qed.

(** X2. What [dfs] holds after a run of [XbrlDb] with a batch size other
    than zero: under a key, the duration frames and the instant frames the
    instances gave for that key, in the order of the instances, none lost
    and none dropped by a write; a key no instance had is absent. *)
Theorem xbrldb_dfs_after_run engine batch_size num_instances instances key :
  batch_size ≠ 0%Z →
  dict_get
    (XbrlDb.dfs
       (XbrlDb.append_all (XbrlDb.init engine batch_size num_instances)
          instances).1) key
  = match instances ≫= frames_of key with
    | [] => None
    | frames => Some (frames.*1, frames.*2)
    end.
Proof.
  intros Hbs.
  rewrite append_all_full with (c := 1); [|done|by constructor|done].
  cbn [fst XbrlDb.init XbrlDb.dfs].
  by rewrite foldl_accumulate, dict_get_accumulate, frames_of_join.
Qed.

(** X3. With [batch_size = 0] the first call of [append_instance] raises
    [ZeroDivisionError] from the remainder in its test: by then the frames
    of that instance have joined [dfs], nothing has been written, the
    counter has not moved, and no later instance is looked at. *)
Theorem xbrldb_zero_batch_size engine num_instances instance instances :
  XbrlDb.append_all (XbrlDb.init engine 0 num_instances) (instance :: instances)
  = ({| XbrlDb.engine := engine;
        XbrlDb.batch_size := 0;
        XbrlDb.num_instances := num_instances;
        XbrlDb.dfs := XbrlDb.accumulate [] instance;
        XbrlDb.counter := 1 |}, Raise ZeroDivisionError).
Proof. done. Qed.

Lemma xbrldb_run_witness :
  (XbrlDb.append_all (XbrlDb.init [] 2 3)
     [instance_frames "1"; instance_frames "2"; instance_frames "3"]).1
  = {| XbrlDb.engine :=
         []
         ++ (flush_points 2 3 1 3
             ≫= fun k =>
                  writes (foldl XbrlDb.accumulate []
                            (take k [instance_frames "1"; instance_frames "2";
                                     instance_frames "3"])));
       XbrlDb.batch_size := 2;
       XbrlDb.num_instances := 3;
       XbrlDb.dfs :=
         foldl XbrlDb.accumulate []
           [instance_frames "1"; instance_frames "2"; instance_frames "3"];
       XbrlDb.counter := 4 |}.
Proof.
  exact (xbrldb_run [] 2 3
           [instance_frames "1"; instance_frames "2"; instance_frames "3"]
           eq_refl).
Defined.

Lemma xbrldb_dfs_after_run_witness :
  (2 ≠ 0)%Z
  ∧ dict_get
      (XbrlDb.dfs
         (XbrlDb.append_all (XbrlDb.init [] 2 3)
            [instance_frames "1"; instance_frames "2"; instance_frames "3"]).1)
      "t"
    = Some ([one_row "duration row 1"; one_row "duration row 2";
             one_row "duration row 3"],
            [one_row "instant row 1"; one_row "instant row 2";
             one_row "instant row 3"]).
Proof.
  split; [done|].
  exact (xbrldb_dfs_after_run [] 2 3
           [instance_frames "1"; instance_frames "2"; instance_frames "3"] "t"
           ltac:(done)).
Defined.

(** ** instance.py: the names of axes and facts *)

Lemma split_nonempty sep s : Str.split sep s ≠ [].
Proof.
  destruct s as [|a s]; [done|]. cbn [Str.split].
  destruct (decide (a = sep)); [done|]. by destruct (Str.split sep s).
Qed.

Lemma split_split_once sep s :
  Str.split sep s
  = (Str.split_once sep s).1
    :: (if Str.contains_char sep s then Str.split sep (Str.split_once sep s).2
        else []).
Proof.
  induction s as [|a s IH]; [done|].
  cbn [Str.split Str.split_once Str.contains_char].
  destruct (decide (a = sep)); [done|].
  rewrite IH. by destruct (Str.split_once sep s).
Qed.

Lemma split_once_no_sep sep s : Str.contains_char sep (Str.split_once sep s).1 = false.
Proof.
  induction s as [|a s IH]; [done|]. cbn [Str.split_once].
  destruct (decide (a = sep)); [done|].
  destruct (Str.split_once sep s) as [l r]. cbn [fst Str.contains_char] in *.
  by rewrite decide_False.
Qed.

Lemma strip_prefix_eq name :
  Axis.strip_prefix name
  = if Str.contains_char ":" name
    then (Str.split_once ":" (Str.split_once ":" name).2).1
    else name.
Proof.
  unfold Axis.strip_prefix. destruct (Str.contains_char ":" name) eqn:Hc; [|done].
  rewrite split_split_once, Hc. cbn [lookup list_lookup].
  by rewrite (split_split_once _ (Str.split_once ":" name).2).
Qed.

Lemma strip_prefix_no_colon name :
  Str.contains_char ":" (Axis.strip_prefix name) = false.
Proof.
  rewrite strip_prefix_eq. destruct (Str.contains_char ":" name) eqn:Hc; [|done].
  apply split_once_no_sep.
Qed.

(** X4. The [name] validator of [Axis] keeps a name without a colon as it
    is and otherwise returns the text between the first and the second
    colon (to the end, if there is no second one); what it returns never
    has a colon, so a name with two colons loses its third part. *)
Theorem strip_prefix_between_colons name :
  Axis.strip_prefix name
  = (if Str.contains_char ":" name
     then (Str.split_once ":" (Str.split_once ":" name).2).1
     else name)
  ∧ Str.contains_char ":" (Axis.strip_prefix name) = false.
Proof. split; [apply strip_prefix_eq | apply strip_prefix_no_colon]. Qed.

Lemma append_cons a s t : String a s +:+ t = String a (s +:+ t).
Proof. done. Qed.

Lemma prefix_app s t : String.prefix s (s +:+ t) = true.
Proof.
  induction s as [|a s IH].
  - by destruct t.
  - rewrite append_cons. cbn [String.prefix].
    destruct (ascii_dec a a); [done|congruence].
Qed.

Lemma replace_from_skip old new x s :
  Str.replace_from old new (String.length x) (x +:+ s)
  = Str.replace_from old new 0 s.
Proof.
  induction x as [|a x IH].
  - done.
  - rewrite append_cons. cbn [String.length Str.replace_from]. apply IH.
Qed.

Lemma replace_from_absent c old new s :
  Str.contains_char c s = false →
  Str.replace_from (String c old) new 0 s = s.
Proof.
  induction s as [|a s IH]; [done|]. cbn [Str.contains_char Str.replace_from].
  destruct (decide (a = c)) as [|Hne]; [done|]. intros Hs.
  cbn [String.prefix]. destruct (ascii_dec c a) as [->|]; [done|].
  by rewrite IH.
Qed.

Lemma append_assoc_string s t u : (s +:+ t) +:+ u = s +:+ (t +:+ u).
Proof. induction s as [|a s IH]; [done|]. by rewrite !append_cons, IH. Qed.

Lemma replace_leading c old s :
  Str.contains_char c s = false →
  Str.replace (String c old +:+ s) (String c old) "" = s.
Proof.
  intros Hs. unfold Str.replace. rewrite append_cons. cbn [Str.replace_from].
  rewrite <- append_cons, prefix_app. cbn [String.length].
  cbn [Nat.sub]. rewrite ?Nat.sub_0_r. rewrite replace_from_skip.
  by apply replace_from_absent.
Qed.

(** X5. The name of a fact is the local part of its tag: for an element
    whose tag is [{uri}local], with [uri] the namespace its prefix is
    mapped to and no brace in [local], [Fact.from_xml] returns the fact
    named [local], filed under the element's [contextRef], with the
    element's text as value. *)
Theorem fact_from_xml_local_name elem uri local c :
  etree.ns_get (nsmap elem) (prefix elem) = Some uri →
  tag elem = "{" +:+ uri +:+ "}" +:+ local →
  Str.contains_char "{" local = false →
  dict_get (attrib elem) "contextRef" = Some c →
  Fact.from_xml elem
  = Ok {| Fact.name := local; Fact.c_id := c; Fact.value := text elem |}.
Proof.
  intros Hns Htag Hlocal Hc. unfold Fact.from_xml, dict_getitem.
  rewrite Hns, Hc, Htag. cbn [mbind result_bind]. do 2 f_equal.
  rewrite <- (replace_leading "{" (uri +:+ "}") local Hlocal) at 2.
  by rewrite !append_cons, append_assoc_string.
Qed.

Lemma fact_from_xml_local_name_witness :
  Fact.from_xml (fact_elem "f1" "Assets" "c1" (Some "100"))
  = Ok {| Fact.name := "Assets"; Fact.c_id := "c1"; Fact.value := Some "100" |}.
Proof.
  exact (fact_from_xml_local_name (fact_elem "f1" "Assets" "c1" (Some "100"))
           "http://ferc.gov/form" "Assets" "c1" eq_refl eq_refl eq_refl eq_refl).
Defined.

(** ** instance.py: what [parse] returns *)

(** The fact the loop of [parse] files for a child of the root, if any. *)
Definition valued_fact (child : Element) : option Fact.t :=
  match dict_get (attrib child) "id" with
  | Some id =>
      if Str.startswith id "c" then None
      else if Str.startswith id "f" then
        match Fact.from_xml child with
        | Ok fact =>
            match Fact.value fact with
            | Some _ => Some fact
            | None => None
            end
        | Raise _ => None
        end
      else None
  | None => None
  end.

(** The facts with a value that [children] file under the context id [c],
    in document order. *)
Definition facts_for (c : string) (children : list Element) : list Fact.t :=
  filter (fun fact => Fact.c_id fact = c) (omap valued_fact children).

Lemma facts_for_cons c child children :
  facts_for c (child :: children)
  = match valued_fact child with
    | Some fact => if decide (Fact.c_id fact = c) then [fact] else []
    | None => []
    end ++ facts_for c children.
Proof.
  unfold facts_for. cbn [omap list_omap].
  destruct (valued_fact child) as [fact|]; [|done].
  rewrite filter_cons. by destruct (decide (Fact.c_id fact = c)).
Qed.

Lemma facts_for_app c pre post :
  facts_for c (pre ++ post) = facts_for c pre ++ facts_for c post.
Proof. unfold facts_for. by rewrite omap_app, filter_app. Qed.

(** One turn of the loop, seen from a context id [c]. *)
Lemma parse_child_step env child st st1 c :
  parse_child env child st = Ok st1 →
  match context_id_of child with
  | Some id =>
      ∃ context, Context.from_xml env child = Ok context
                 ∧ Context.c_id context = id
                 ∧ st1 = (dict_set st.1 id context, dict_set st.2 id [])
  | None =>
      st1.1 = st.1
      ∧ dict_get st1.2 c
        = (facts ← dict_get st.2 c; Some (facts ++ facts_for c [child]))
      ∧ dict_keys st1.2 = dict_keys st.2
      ∧ (dict_get st.2 c = None → facts_for c [child] = [])
  end.
Proof.
  assert (Hsame : ∀ fact_dict : dict (list Fact.t),
             dict_get fact_dict c
             = (facts ← dict_get fact_dict c; Some (facts ++ []))).
  { intros fact_dict. destruct (dict_get fact_dict c); cbn; [|done].
    by rewrite app_nil_r. }
  destruct st as [context_dict fact_dict].
  unfold parse_child, context_id_of, facts_for, valued_fact.
  cbn [omap list_omap fst snd].
  destruct (dict_get (attrib child) "id") as [id|] eqn:Hid.
  2:{ intros [= <-]. cbn [fst snd]. by rewrite filter_nil. }
  destruct (Str.startswith id "c") eqn:Hc.
  { intros (context & Hctx & [= <-])%bind_Ok. exists context.
    pose proof (Context_from_xml_id _ _ _ Hctx) as Hcid.
    rewrite Hid in Hcid. injection Hcid as <-. done. }
  destruct (Str.startswith id "f") eqn:Hf.
  2:{ intros [= <-]. cbn [fst snd]. by rewrite filter_nil. }
  intros (fact & Hfact & H)%bind_Ok. rewrite Hfact.
  destruct (Fact.value fact) as [v|] eqn:Hv.
  2:{ injection H as <-. cbn [fst snd]. by rewrite filter_nil. }
  apply bind_Ok in H as (facts & Hfacts%dict_getitem_Ok & [= <-]).
  cbn [fst snd]. rewrite filter_cons, filter_nil, dict_get_set.
  split; [done|].
  destruct (decide (Fact.c_id fact = c)) as [<-|Hne].
  - rewrite Hfacts. split; [done|]. split; [|done].
    rewrite dict_keys_set, bool_decide_true; [done|].
    by eapply dict_get_Some_keys.
  - split; [done|]. split; [|done].
    rewrite dict_keys_set, bool_decide_true; [done|].
    by eapply dict_get_Some_keys.
Qed.

(** Children none of which declares the context id [c] leave the context
    under [c] alone and add their facts for [c] to its list. *)
Lemma parse_children_undeclared env children st st' c :
  parse_children env children st = Ok st' →
  c ∉ context_ids children →
  dict_get st'.1 c = dict_get st.1 c
  ∧ dict_get st'.2 c
    = (facts ← dict_get st.2 c; Some (facts ++ facts_for c children)).
Proof.
  revert st. induction children as [|child children IH]; intros st.
  - intros [= <-] _. split; [done|].
    destruct (dict_get st.2 c); cbn; [|done]. by rewrite app_nil_r.
  - cbn [parse_children]. intros (st1 & Hstep & Hrest)%bind_Ok Hnin.
    unfold context_ids in Hnin. cbn [omap list_omap] in Hnin.
    apply (parse_child_step _ _ _ _ c) in Hstep.
    destruct (context_id_of child) as [id|] eqn:Hcid.
    + apply not_elem_of_cons in Hnin as [Hne Hnin].
      destruct Hstep as (context & _ & _ & ->).
      destruct (IH _ Hrest Hnin) as [IH1 IH2]. cbn [fst snd] in *.
      rewrite IH1, IH2, !dict_get_set_ne by done. split; [done|].
      rewrite (facts_for_cons c child). unfold valued_fact.
      unfold context_id_of in Hcid.
      destruct (dict_get (attrib child) "id") as [id'|]; [|done].
      by destruct (Str.startswith id' "c").
    + destruct Hstep as (H1 & H2 & _ & _). destruct (IH _ Hrest Hnin) as [IH1 IH2].
      rewrite IH1, IH2, H1, H2. split; [done|].
      destruct (dict_get st.2 c) as [facts|]; [|done].
      change (child :: children) with ([child] ++ children).
      cbn [mbind option_bind]. by rewrite facts_for_app, app_assoc.
Qed.

Lemma facts_for_undeclared env children st st' c :
  parse_children env children st = Ok st' →
  dict_get st.2 c = None →
  c ∉ context_ids children →
  facts_for c children = [].
Proof.
  revert st. induction children as [|child children IH]; intros st; [done|].
  cbn [parse_children]. intros (st1 & Hstep & Hrest)%bind_Ok Hnone Hnin.
  unfold context_ids in Hnin. cbn [omap list_omap] in Hnin.
  apply (parse_child_step _ _ _ _ c) in Hstep.
  change (child :: children) with ([child] ++ children). rewrite facts_for_app.
  destruct (context_id_of child) as [id|] eqn:Hcid.
  - apply not_elem_of_cons in Hnin as [Hne Hnin].
    destruct Hstep as (context & _ & _ & ->).
    rewrite (IH _ Hrest); [|by cbn; rewrite dict_get_set_ne|done].
    rewrite app_nil_r. unfold facts_for, valued_fact. cbn [omap list_omap].
    unfold context_id_of in Hcid.
    destruct (dict_get (attrib child) "id") as [id'|]; [|done].
    by destruct (Str.startswith id' "c").
  - destruct Hstep as (_ & H2 & _ & H4).
    rewrite H4 by done. rewrite (IH _ Hrest); [done| |done].
    by rewrite H2, Hnone.
Qed.

Lemma parse_children_declared env pre child post st' c :
  parse_children env (pre ++ child :: post) ([], []) = Ok st' →
  context_id_of child = Some c →
  c ∉ context_ids post →
  (∃ context, Context.from_xml env child = Ok context
              ∧ dict_get st'.1 c = Some context)
  ∧ dict_get st'.2 c = Some (facts_for c post).
Proof.
  rewrite parse_children_app. intros (st1 & Hpre & H)%bind_Ok Hcid Hnin.
  cbn [parse_children] in H. apply bind_Ok in H as (st2 & Hstep & Hpost).
  apply (parse_child_step _ _ _ _ c) in Hstep. rewrite Hcid in Hstep.
  destruct Hstep as (context & Hctx & _ & ->).
  destruct (parse_children_undeclared _ _ _ _ _ Hpost Hnin) as [H1 H2].
  cbn [fst snd] in *. rewrite dict_get_set_eq in H1.
  rewrite dict_get_set_eq in H2. split; [|done].
  by exists context.
Qed.

Lemma parse_children_keys env children st st' :
  parse_children env children st = Ok st' →
  NoDup (dict_keys st.1 ++ context_ids children) →
  dict_keys st'.1 = dict_keys st.1 ++ context_ids children.
Proof.
  revert st. induction children as [|child children IH]; intros st.
  - intros [= <-] _. by rewrite app_nil_r.
  - cbn [parse_children]. intros (st1 & Hstep & Hrest)%bind_Ok.
    unfold context_ids. cbn [omap list_omap]. fold (context_ids children).
    apply (parse_child_step _ _ _ _ "") in Hstep.
    destruct (context_id_of child) as [id|].
    + destruct Hstep as (context & _ & _ & ->). intros Hnd.
      assert (Hfresh : id ∉ dict_keys st.1).
      { apply NoDup_app in Hnd as (_ & Hd & _). intros Hin.
        apply (Hd _ Hin). by left. }
      rewrite (IH _ Hrest); cbn [fst].
      * rewrite dict_keys_set, bool_decide_false by done.
        by rewrite <- app_assoc.
      * rewrite dict_keys_set, bool_decide_false by done.
        by rewrite <- app_assoc.
    + destruct Hstep as (H1 & _). intros Hnd.
      rewrite (IH _ Hrest), H1; [done|]. by rewrite H1.
Qed.

(** X6. Which facts [parse] returns under a context id: those of the fact
    elements with a text that name the id and stand after the LAST context
    element with that id, in document order; the context returned under
    the id is the one read from that last element.  A context element that
    repeats an id thus discards the facts filed under the id before it. *)
Theorem parse_facts_since_last_declaration
    env path contexts facts url root pre child post c :
  parse env path = Ok (contexts, facts, url) →
  etree_parse env path = Ok root →
  getchildren root = pre ++ child :: post →
  context_id_of child = Some c →
  c ∉ context_ids post →
  (∃ context, Context.from_xml env child = Ok context
              ∧ dict_get contexts c = Some context)
  ∧ dict_get facts c = Some (facts_for c post).
Proof.
  intros (root' & Hroot' & Hloop)%parse_Ok Hroot Hch Hcid Hnin.
  rewrite Hroot in Hroot'. injection Hroot' as <-. rewrite Hch in Hloop.
  apply (parse_children_declared _ _ _ _ _ _ Hloop Hcid Hnin).
Qed.

(** X7. When no two context elements of the document share an id, a
    successful [parse] loses nothing: the context dictionary has the ids of
    the context elements as keys, in document order, and under each id the
    fact dictionary holds all fact elements of the document with a text
    that name the id, in document order. *)
Theorem parse_complete env path contexts facts url root :
  parse env path = Ok (contexts, facts, url) →
  etree_parse env path = Ok root →
  NoDup (context_ids (getchildren root)) →
  dict_keys contexts = context_ids (getchildren root)
  ∧ ∀ c, c ∈ context_ids (getchildren root) →
         dict_get facts c = Some (facts_for c (getchildren root)).
Proof.
  intros (root' & Hroot' & Hloop)%parse_Ok Hroot Hnd.
  rewrite Hroot in Hroot'. injection Hroot' as <-. split.
  - by apply (parse_children_keys _ _ _ _ Hloop).
  - intros c Hc. unfold context_ids in Hc.
    apply list_elem_of_omap in Hc as (child & Hchild & Hcid).
    apply list_elem_of_split in Hchild as (pre & post & Hsplit).
    rewrite Hsplit in Hloop, Hnd |- *.
    unfold context_ids in Hnd. rewrite omap_app in Hnd. cbn [omap list_omap] in Hnd.
    rewrite Hcid in Hnd. apply NoDup_app in Hnd as (_ & Hpre & Hpost).
    apply NoDup_cons in Hpost as [Hpost _].
    assert (Hnpre : c ∉ context_ids pre).
    { intros Hin. apply (Hpre _ Hin). by left. }
    destruct (parse_children_declared _ _ _ _ _ _ Hloop Hcid Hpost) as [_ Hget].
    cbn [snd] in Hget. rewrite Hget.
    rewrite parse_children_app in Hloop.
    apply bind_Ok in Hloop as (st1 & Hloop_pre & _).
    change (child :: post) with ([child] ++ post). rewrite !facts_for_app.
    rewrite (facts_for_undeclared _ _ _ _ _ Hloop_pre); [|done|done].
    assert (facts_for c [child] = []) as ->; [|done].
    unfold facts_for, valued_fact. cbn [omap list_omap].
    unfold context_id_of in Hcid.
    destruct (dict_get (attrib child) "id") as [id'|]; [|done].
    by destruct (Str.startswith id' "c").
Qed.

(** A filing that declares the context [c1] twice, with a fact after each
    declaration. *)
Definition redeclared_document : Element :=
  document [c1_elem; fact_elem "f1" "Assets" "c1" (Some "1000");
            c1_elem; fact_elem "f2" "Liabilities" "c1" (Some "7")].

Definition redeclared_env : Env := env_of [("redeclared.xml", redeclared_document)].

Lemma parse_facts_since_last_declaration_witness :
  parse redeclared_env "redeclared.xml"
  = Ok ([("c1", sample_c1)],
        [("c1", [{| Fact.name := "Liabilities"; Fact.c_id := "c1";
                    Fact.value := Some "7" |}])],
        "https://ferc.gov/form1.xsd")
  ∧ dict_get [("c1", [{| Fact.name := "Liabilities"; Fact.c_id := "c1";
                         Fact.value := Some "7" |}])] "c1"
    = Some (facts_for "c1" [fact_elem "f2" "Liabilities" "c1" (Some "7")]).
Proof.
  assert (H1 : parse redeclared_env "redeclared.xml"
               = Ok ([("c1", sample_c1)],
                     [("c1", [{| Fact.name := "Liabilities"; Fact.c_id := "c1";
                                 Fact.value := Some "7" |}])],
                     "https://ferc.gov/form1.xsd"))
    by (vm_compute; reflexivity).
  split; [exact H1|].
  refine (proj2 (parse_facts_since_last_declaration redeclared_env
                   "redeclared.xml" _ _ _ redeclared_document
                   [schema_ref_elem; c1_elem;
                    fact_elem "f1" "Assets" "c1" (Some "1000")]
                   c1_elem [fact_elem "f2" "Liabilities" "c1" (Some "7")] "c1"
                   H1 _ _ _ _)).
  - by vm_compute.
  - by vm_compute.
  - by vm_compute.
  - by_evaluation.
Defined.

Lemma parse_complete_witness :
  dict_keys sample_contexts = context_ids (getchildren good_document)
  ∧ ∀ c, c ∈ context_ids (getchildren good_document) →
         dict_get sample_facts c = Some (facts_for c (getchildren good_document)).
Proof.
  apply (parse_complete sample_env "good.xml" sample_contexts sample_facts
           "https://ferc.gov/form1.xsd" good_document).
  - by vm_compute.
  - by vm_compute.
  - by_evaluation.
Defined.

(** ** instance.py: the contexts [parse] returns *)

Lemma mapM_Ok {A B} (f : A → result B) xs ys :
  mapM f xs = Ok ys → Forall2 (fun x y => f x = Ok y) xs ys.
Proof.
  revert ys. induction xs as [|x xs IH]; intros ys.
  - intros [= <-]. constructor.
  - cbn [mapM]. intros (y & Hy & H)%bind_Ok.
    apply bind_Ok in H as (ys' & Hys & [= <-]). constructor; [done | by apply IH].
Qed.

Lemma Axis_from_xml_name elem axis :
  Axis.from_xml elem = Ok (Some axis) →
  ∃ dimension, dict_get (attrib elem) "dimension" = Some dimension
               ∧ Axis.name axis = Axis.strip_prefix dimension.
Proof.
  unfold Axis.from_xml. destruct (Str.endswith (tag elem) "explicitMember").
  - intros (n & Hn%dict_getitem_Ok & H)%bind_Ok.
    apply bind_Ok in H as (v & _ & [= <-]). by exists n.
  - destruct (Str.endswith (tag elem) "typedMember"); [|done].
    intros (dim & _ & H)%bind_Ok.
    apply bind_Ok in H as (n & Hn%dict_getitem_Ok & H).
    apply bind_Ok in H as (v & _ & [= <-]). by exists n.
Qed.

(** The members the comprehension of [Entity.from_xml] runs over. *)
Definition segment_members (elem : Element) : result (list Element) :=
  segment ← etree.find elem "segment" (nsmap elem);
  match segment with
  | Some seg => etree.findall seg "xbrldi:*" (nsmap seg)
  | None => Ok []
  end.

Lemma Entity_from_xml_Ok elem entity :
  Entity.from_xml elem = Ok entity →
  ∃ members,
    segment_members elem = Ok members
    ∧ Forall2 (fun member axis => Axis.from_xml member = Ok (Some axis))
              members (Entity.dimensions entity).
Proof.
  unfold Entity.from_xml, segment_members.
  intros (segment & Hseg & H)%bind_Ok. rewrite Hseg. cbn [mbind result_bind].
  apply bind_Ok in H as (dims & Hdims & H). exists dims. split; [done|].
  apply bind_Ok in H as (ident & _ & H).
  apply bind_Ok in H as (axes & Haxes%mapM_Ok & H).
  apply bind_Ok in H as (i & _ & H).
  apply bind_Ok in H as (ds & Hds%mapM_Ok & [= <-]). cbn [Entity.dimensions].
  clear -Haxes Hds. revert ds Hds.
  induction Haxes as [|member o dims axes Hm _ IH]; intros ds Hds.
  - inversion Hds. constructor.
  - inversion Hds as [|? axis ? ds' Ho Hds']; subst. constructor; [|by apply IH].
    destruct o as [a|]; [|done]. by injection Ho as ->.
Qed.

Lemma Period_from_xml_instant env elem period :
  Period.from_xml env elem = Ok period →
  Period.instant period = true → Period.start_date period = None.
Proof.
  unfold Period.from_xml. intros (found & _ & H)%bind_Ok.
  destruct found as [inst|].
  - apply bind_Ok in H as (e & _ & [= <-]). done.
  - apply bind_Ok in H as (s_elem & _ & H). apply bind_Ok in H as (e_elem & _ & H).
    apply bind_Ok in H as (s & _ & H). apply bind_Ok in H as (e & _ & [= <-]).
    done.
Qed.

Lemma Context_from_xml_Ok env elem context :
  Context.from_xml env elem = Ok context →
  Forall (fun axis => Str.contains_char ":" (Axis.name axis) = false)
         (Entity.dimensions (Context.entity context))
  ∧ (Period.instant (Context.period context) = true →
     Period.start_date (Context.period context) = None).
Proof.
  unfold Context.from_xml. intros (i & _ & H)%bind_Ok.
  apply bind_Ok in H as (e_elem & _ & H). apply bind_Ok in H as (e & He & H).
  apply bind_Ok in H as (p_elem & _ & H). apply bind_Ok in H as (p & Hp & [= <-]).
  cbn [Context.entity Context.period]. split.
  - apply Entity_from_xml_Ok in He as (members & _ & Hall).
    induction Hall as [|member axis members axes Hm _ IH]; constructor; [|done].
    apply Axis_from_xml_name in Hm as (dimension & _ & ->).
    apply strip_prefix_no_colon.
  - by eapply Period_from_xml_instant.
Qed.

(** Where a context of the dictionary comes from. *)
Lemma parse_children_contexts env children st st' c context :
  parse_children env children st = Ok st' →
  dict_get st'.1 c = Some context →
  dict_get st.1 c = Some context
  ∨ ∃ child, child ∈ children ∧ context_id_of child = Some c
             ∧ Context.from_xml env child = Ok context.
Proof.
  revert st. induction children as [|child children IH]; intros st.
  - intros [= <-] Hget. by left.
  - cbn [parse_children]. intros (st1 & Hstep & Hrest)%bind_Ok Hget.
    destruct (IH _ Hrest Hget) as [Hst1 | (ch & Hin & Hcid & Hctx)].
    2:{ right. exists ch. split; [by right | done]. }
    apply (parse_child_step _ _ _ _ c) in Hstep.
    destruct (context_id_of child) as [id|] eqn:Hcid.
    + destruct Hstep as (context' & Hctx & _ & ->). cbn [fst] in Hst1.
      rewrite dict_get_set in Hst1. destruct (decide (id = c)) as [->|Hne].
      * injection Hst1 as ->. right. exists child. split; [by left | done].
      * by left.
    + destruct Hstep as (H1 & _). rewrite H1 in Hst1. by left.
Qed.

(** X8. Every context a successful [parse] returns was read from a child
    of the root whose id begins with "c" and is the key the context stands
    under; none of its axis names has a colon (the prefix is stripped),
    and an instant period has no start date. *)
Theorem parse_contexts_wellformed env path contexts facts url c context :
  parse env path = Ok (contexts, facts, url) →
  dict_get contexts c = Some context →
  (∃ root child,
     etree_parse env path = Ok root ∧ child ∈ getchildren root
     ∧ dict_get (attrib child) "id" = Some c
     ∧ Context.from_xml env child = Ok context)
  ∧ Str.startswith c "c" = true
  ∧ Context.c_id context = c
  ∧ Forall (fun axis => Str.contains_char ":" (Axis.name axis) = false)
           (Entity.dimensions (Context.entity context))
  ∧ (Period.instant (Context.period context) = true →
     Period.start_date (Context.period context) = None).
Proof.
  intros (root & Hroot & Hloop)%parse_Ok Hget.
  destruct (parse_children_contexts _ _ _ _ _ _ Hloop Hget)
    as [Hnil | (child & Hin & Hcid & Hctx)]; [done|].
  pose proof (Context_from_xml_id _ _ _ Hctx) as Hid.
  unfold context_id_of in Hcid. rewrite Hid in Hcid.
  destruct (Str.startswith (Context.c_id context) "c") eqn:Hc; [|done].
  injection Hcid as <-.
  destruct (Context_from_xml_Ok _ _ _ Hctx) as [Haxes Hinstant].
  split; [by exists root, child|]. done.
Qed.

Lemma parse_contexts_wellformed_witness :
  (∃ root child,
     etree_parse sample_env "good.xml" = Ok root ∧ child ∈ getchildren root
     ∧ dict_get (attrib child) "id" = Some "c2"
     ∧ Context.from_xml sample_env child = Ok sample_c2)
  ∧ Str.startswith "c2" "c" = true
  ∧ Context.c_id sample_c2 = "c2"
  ∧ Forall (fun axis => Str.contains_char ":" (Axis.name axis) = false)
           (Entity.dimensions (Context.entity sample_c2))
  ∧ (Period.instant (Context.period sample_c2) = true →
     Period.start_date (Context.period sample_c2) = None).
Proof.
  apply (parse_contexts_wellformed sample_env "good.xml" sample_contexts
           sample_facts "https://ferc.gov/form1.xsd" "c2" sample_c2).
  - by vm_compute.
  - by vm_compute.
Defined.

(** X9. The dimensions of an entity follow the members of its segment one
    by one, in document order: every element of the [xbrldi] namespace
    below the segment gives one axis, whose name is the member's
    [dimension] attribute with the prefix stripped.  An entity without a
    segment has no dimensions, and a member that is neither explicit nor
    typed makes the entity invalid rather than being skipped. *)
Theorem entity_dimensions_follow_members elem entity :
  Entity.from_xml elem = Ok entity →
  ∃ members,
    segment_members elem = Ok members
    ∧ Forall2 (fun member axis =>
                 Axis.from_xml member = Ok (Some axis)
                 ∧ (Str.endswith (tag member) "explicitMember" = true
                    ∨ Str.endswith (tag member) "typedMember" = true)
                 ∧ ∃ dimension,
                     dict_get (attrib member) "dimension" = Some dimension
                     ∧ Axis.name axis = Axis.strip_prefix dimension)
              members (Entity.dimensions entity).
Proof.
  intros (members & Hm & Hall)%Entity_from_xml_Ok. exists members.
  split; [done|]. eapply Forall2_impl; [exact Hall|].
  intros member axis Haxis. split; [done|]. split.
  - unfold Axis.from_xml in Haxis.
    destruct (Str.endswith (tag member) "explicitMember"); [by left|].
    destruct (Str.endswith (tag member) "typedMember"); [by right | done].
  - by apply Axis_from_xml_name.
Qed.

Lemma entity_dimensions_follow_members_witness :
  ∃ members,
    segment_members
      (elem (xbrli "entity") None [] None
         [elem (xbrli "identifier") None [] (Some "E1") [];
          elem (xbrli "segment") None [] None
            [explicit_member "ferc:UtilityTypeAxis" "Electric"]]) = Ok members
    ∧ Forall2 (fun member axis =>
                 Axis.from_xml member = Ok (Some axis)
                 ∧ (Str.endswith (tag member) "explicitMember" = true
                    ∨ Str.endswith (tag member) "typedMember" = true)
                 ∧ ∃ dimension,
                     dict_get (attrib member) "dimension" = Some dimension
                     ∧ Axis.name axis = Axis.strip_prefix dimension)
              members (Entity.dimensions (Context.entity sample_c2)).
Proof.
  apply (entity_dimensions_follow_members
           (elem (xbrli "entity") None [] None
              [elem (xbrli "identifier") None [] (Some "E1") [];
               elem (xbrli "segment") None [] None
                 [explicit_member "ferc:UtilityTypeAxis" "Electric"]])
           (Context.entity sample_c2)).
  by vm_compute.
Defined.

(** ** instance.py: [Context.get_context_ids] *)

(** The items of [axes_dict], before they are made a dictionary. *)
Definition axis_items (context : Context.t) : list (string * value) :=
  (fun axis => (Axis.name axis, VStr (Axis.value axis)))
    <$> Entity.dimensions (Context.entity context).

(** X10. The dictionary [get_context_ids] returns, seen through lookups:
    no key stands twice; a key that is the name of an axis holds the value
    of the last axis of that name, also when the key is [context_id],
    [entity_id], [filing_name] or a date field; any other key holds the
    context id, the entity identifier, the filing name as passed, [date]
    for an instant period, [start_date] and [end_date] for a duration, and
    nothing else. *)
Theorem get_context_ids_lookup context filing_name k :
  NoDup (dict_keys (Context.get_context_ids context filing_name))
  ∧ dict_get (Context.get_context_ids context filing_name) k
    = match get_last (axis_items context) k with
      | Some v => Some v
      | None =>
          if decide (k = "context_id") then Some (VStr (Context.c_id context))
          else if decide (k = "entity_id")
          then Some (VStr (Entity.identifier (Context.entity context)))
          else if decide (k = "filing_name") then Some (of_opt VInt filing_name)
          else if Period.instant (Context.period context)
          then (if decide (k = "date")
                then Some (VDate (Period.end_date (Context.period context)))
                else None)
          else if decide (k = "start_date")
          then Some (of_opt VDate (Period.start_date (Context.period context)))
          else if decide (k = "end_date")
          then Some (VDate (Period.end_date (Context.period context)))
          else None
      end.
Proof.
  split; [apply NoDup_dict_keys_of_items|].
  unfold Context.get_context_ids. fold (axis_items context).
  rewrite dict_get_of_items, !get_last_app.
  rewrite (get_last_NoDup (dict_of_items (axis_items context)))
    by apply NoDup_dict_keys_of_items.
  rewrite dict_get_of_items.
  destruct (get_last (axis_items context) k) as [v|]; [done|].
  destruct (Period.instant (Context.period context)); cbn [get_last];
    repeat (destruct (decide (_ = k)) as [<-|?]; [done|]);
    repeat (rewrite decide_False by done); done.
Qed.

(** ** xbrl.py: when [construct_dataframe] returns *)

(** X13. [construct_dataframe] returns a frame if and only if the context
    dictionary is empty and the schema has the [context_id] column; the
    frame then has the columns of the schema but [context_id] and no row.
    With a context in the dictionary it raises [AttributeError] at the
    comprehension, and with none and no [context_id] column the final
    [drop] raises [KeyError]. *)
Theorem construct_dataframe_returns_iff contexts facts table filing_id :
  (is_Ok (construct_dataframe contexts facts table filing_id)
   ↔ contexts = [] ∧ "context_id" ∈ dict_keys (columns table))
  ∧ (contexts ≠ [] →
     construct_dataframe contexts facts table filing_id = Raise AttributeError)
  ∧ (contexts = [] → "context_id" ∉ dict_keys (columns table) →
     construct_dataframe contexts facts table filing_id
     = Raise (KeyError "context_id"))
  ∧ ∀ frame,
      construct_dataframe contexts facts table filing_id = Ok frame →
      pd.index frame = []
      ∧ (∀ k, k ∈ dict_keys (pd.columns frame)
              ↔ k ∈ dict_keys (columns table) ∧ k ≠ "context_id")
      ∧ ∀ k col, dict_get (pd.columns frame) k = Some col → col = [].
Proof.
  rewrite construct_dataframe_eq. unfold dict_contains.
  destruct contexts as [|item contexts].
  - destruct (decide ("context_id" ∈ dict_keys (columns table))) as [Hin|Hnin].
    + rewrite bool_decide_true by done. split; [|split; [done|split; [done|]]].
      * split; [done|]. intros _. by eexists.
      * intros frame [= <-]. split; [done|].
        split; [apply elem_of_keys_frame_without_rows|].
        apply frame_without_rows_cells.
    + rewrite bool_decide_false by done. split; [|split; [done|split; [done|done]]].
      split; [by intros [frame ?] | by intros [_ ?]].
  - split; [|split; [done|split; [done|done]]].
    split; [by intros [frame ?] | by intros [? _]].
Qed.

(** ** xbrl.py: the schema [get_fact_table] derives *)

(** X15. The column map of the schema derived for a role with a root
    concept, seen through lookups.  No name stands twice.  A name borne by
    a leaf below a LineItems child of the root has the type of the last
    such leaf; otherwise [filing_id], when generated, is an integer;
    otherwise an axis name is a string, also when the axis is named
    [instant]; otherwise the four fixed fields are strings and [instant]
    is boolean; and there is no other column. *)
Theorem fact_table_lookup schedule gen_filing_id root rest k :
  Concept.child_concepts (LinkRole.concepts schedule) = root :: rest →
  ∃ table,
    get_fact_table schedule gen_filing_id = Ok table
    ∧ NoDup (dict_keys (columns table))
    ∧ dict_get (columns table) k
      = match get_last (leaf_column <$> line_item_leaves root) k with
        | Some d => Some d
        | None =>
            if gen_filing_id && bool_decide (k = "filing_id") then Some py_int
            else if bool_decide (k ∈ axis_names root) then Some py_str
            else if bool_decide
                      (k ∈ ["context_id"; "entity_id"; "start_date"; "end_date"])
            then Some py_str
            else if bool_decide (k = "instant") then Some np_bool8
            else None
        end.
Proof.
  intros Hroot. eexists. split; [exact (get_fact_table_eq _ _ _ _ Hroot)|].
  cbn [columns]. split.
  - apply NoDup_dict_keys_update. destruct gen_filing_id.
    + apply NoDup_dict_keys_set, NoDup_dict_keys_of_items.
    + apply NoDup_dict_keys_of_items.
  - apply dict_get_fact_table_columns.
Qed.

Lemma fact_table_lookup_witness :
  ∃ table,
    get_fact_table sample_role true = Ok table
    ∧ NoDup (dict_keys (columns table))
    ∧ dict_get (columns table) "Rate"
      = match get_last (leaf_column <$> line_item_leaves sample_root) "Rate" with
        | Some d => Some d
        | None =>
            if true && bool_decide ("Rate" = "filing_id") then Some py_int
            else if bool_decide ("Rate" ∈ axis_names sample_root) then Some py_str
            else if bool_decide
                      ("Rate" ∈ ["context_id"; "entity_id"; "start_date"; "end_date"])
            then Some py_str
            else if bool_decide ("Rate" = "instant") then Some np_bool8
            else None
        end.
Proof.
  apply (fact_table_lookup sample_role true sample_root [] "Rate").
  by vm_compute.
Defined.

(** ** xbrl.py: a role without a root concept *)

Lemma derive_tables_rootless roles gen_filing_id tables :
  (∃ role, role ∈ roles ∧ Concept.child_concepts (LinkRole.concepts role) = []) →
  derive_tables roles gen_filing_id tables = Raise IndexError.
Proof.
  revert tables. induction roles as [|role roles IH]; intros tables (r & Hin & Hr).
  - by apply elem_of_nil in Hin.
  - cbn [derive_tables]. unfold get_fact_table at 1.
    destruct (Concept.child_concepts (LinkRole.concepts role)) as [|root rest] eqn:E.
    + done.
    + cbn [mbind result_bind]. apply IH.
      apply elem_of_cons in Hin as [-> | Hin]; [congruence | by exists r].
Qed.

(** X16. A role whose concept tree has no root concept below its top node
    makes [get_fact_table] raise [IndexError], and [extract] with it: the
    run ends with [IndexError] before any instance is parsed, whatever the
    instances, and the store is left as it was. *)
Theorem extract_rootless_role env taxonomy instance_paths engine batch_size
    threads gen_filing_id role :
  role ∈ Taxonomy.roles taxonomy →
  Concept.child_concepts (LinkRole.concepts role) = [] →
  get_fact_table role gen_filing_id = Raise IndexError
  ∧ extract env taxonomy instance_paths engine batch_size threads gen_filing_id
    = (engine, Raise IndexError).
Proof.
  intros Hin Hroot. split.
  - unfold get_fact_table. by rewrite Hroot.
  - unfold extract. rewrite derive_tables_rootless; [done|]. by exists role.
Qed.

(** A role with an empty concept tree. *)
Definition rootless_role : LinkRole.t :=
  {| LinkRole.definition := "000 - Schedule - Empty";
     LinkRole.concepts := Concept.mk "EmptyAbstract" "Abstract" [] |}.

Lemma extract_rootless_role_witness :
  get_fact_table rootless_role false = Raise IndexError
  ∧ extract sample_env {| Taxonomy.roles := [sample_role; rootless_role] |}
            [("good.xml", 0%Z)] [] 2 None false
    = ([], Raise IndexError).
Proof.
  apply (extract_rootless_role sample_env
           {| Taxonomy.roles := [sample_role; rootless_role] |}
           [("good.xml", 0%Z)] [] 2 None false rootless_role).
  - cbn [Taxonomy.roles]. do 2 constructor.
  - done.
Defined.

(** ** xbrl.py: [process_instance] and [extract] *)

(** X17. [process_instance] never returns a result: when [parse] raises,
    its exception comes out; when [parse] returns, binding its three
    values to two names raises [ValueError], before any frame is built. *)
Theorem process_instance_never_returns env path i tables engine gen_filing_id :
  process_instance env (path, i) tables engine gen_filing_id
  = match parse env path with
    | Ok _ => Raise ValueError
    | Raise e => Raise e
    end
  ∧ ∀ dfs, process_instance env (path, i) tables engine gen_filing_id ≠ Ok dfs.
Proof.
  unfold process_instance. by destruct (parse env path).
Qed.

Lemma process_instance_raises env instance tables engine gen_filing_id :
  process_instance env instance tables engine gen_filing_id
  = Raise match parse env instance.1 with
          | Ok _ => ValueError
          | Raise e => e
          end.
Proof.
  destruct instance as [path i]. unfold process_instance. cbn [fst].
  by destruct (parse env path).
Qed.

(** X18. [extract] never writes to the store and never returns normally,
    whatever the taxonomy and the instances: with the schemas derived and
    the pool created, the first instance of the list ends the run, with
    the exception of [parse] for its file or, when [parse] returns, with
    the [ValueError] of [process_instance]. *)
Theorem extract_never_writes env taxonomy instance_paths engine batch_size
    threads gen_filing_id :
  (∃ e, extract env taxonomy instance_paths engine batch_size threads
                gen_filing_id = (engine, Raise e))
  ∧ ∀ tables path i rest,
      derive_tables (Taxonomy.roles taxonomy) gen_filing_id [] = Ok tables →
      thread_pool threads = Ok tt →
      instance_paths = (path, i) :: rest →
      extract env taxonomy instance_paths engine batch_size threads gen_filing_id
      = (engine, Raise match parse env path with
                       | Ok _ => ValueError
                       | Raise e => e
                       end).
Proof.
  unfold extract. split.
  - destruct (derive_tables _ _ _) as [tables|e]; [|by exists e].
    cbn [mbind result_bind].
    destruct (thread_pool threads) as [[]|e]; [|by exists e].
    cbn [mbind result_bind].
    destruct instance_paths as [|instance rest]; [by eexists|].
    rewrite fmap_cons, process_instance_raises. by eexists.
  - intros tables path i rest -> -> ->. cbn [mbind result_bind].
    by rewrite fmap_cons, process_instance_raises.
Qed.

Lemma extract_never_writes_witness :
  extract sample_env sample_taxonomy [("good.xml", 0%Z)] [] 2 None false
  = ([], Raise ValueError).
Proof.
  exact (proj2 (extract_never_writes sample_env sample_taxonomy
                  [("good.xml", 0%Z)] [] 2 None false)
               [("001 - Schedule - Balance Sheet", sample_table)]
               "good.xml" 0%Z [] eq_refl eq_refl eq_refl).
Defined.

Lemma derive_tables_rooted roles gen_filing_id tables :
  Forall (fun role => Concept.child_concepts (LinkRole.concepts role) ≠ []) roles →
  is_Ok (derive_tables roles gen_filing_id tables).
Proof.
  intros Hall. revert tables.
  induction Hall as [|role roles Hrole _ IH]; intros tables; [by eexists|].
  cbn [derive_tables].
  destruct (Concept.child_concepts (LinkRole.concepts role)) as [|root rest] eqn:E;
    [done|].
  rewrite (get_fact_table_eq _ _ _ _ E). cbn [mbind result_bind]. apply IH.
Qed.

(** X19. [extract] never succeeds on an empty list of instances, and
    writes nothing: when every role has a root concept and the number of
    threads is acceptable, the loop over the results binds no [dfs] and
    the loop that writes raises [NameError]. *)
Theorem extract_no_instances env taxonomy engine batch_size threads gen_filing_id :
  (∃ e, extract env taxonomy [] engine batch_size threads gen_filing_id
        = (engine, Raise e))
  ∧ (Forall (fun role => Concept.child_concepts (LinkRole.concepts role) ≠ [])
            (Taxonomy.roles taxonomy) →
     thread_pool threads = Ok tt →
     extract env taxonomy [] engine batch_size threads gen_filing_id
     = (engine, Raise (NameError "dfs"))).
Proof.
  unfold extract. split.
  - destruct (derive_tables _ _ _) as [tables|e]; [|by exists e].
    cbn [mbind result_bind].
    destruct (thread_pool threads) as [[]|e]; [|by exists e]. by eexists.
  - intros Hroles ->.
    destruct (derive_tables_rooted _ gen_filing_id [] Hroles) as [tables ->].
    done.
Qed.

Lemma extract_no_instances_witness :
  extract sample_env sample_taxonomy [] [] 2 None false
  = ([], Raise (NameError "dfs")).
Proof.
  apply (proj2 (extract_no_instances sample_env sample_taxonomy [] 2 None false)).
  - cbn [Taxonomy.roles]. by repeat constructor.
  - done.
Defined.

(** ** instance.py: the axis test and the loop of [parse] *)

(** X20. The axis test does not depend on the order of the axes: an
    entity whose dimensions are those of another in a different order,
    tested against a rearranged list of axis names, gives the same
    answer. *)
Theorem check_dimensions_permutation (context context' : Context.t)
    (axes axes' : list string) :
  Entity.dimensions (Context.entity context)
    ≡ₚ Entity.dimensions (Context.entity context') →
  axes ≡ₚ axes' →
  Context.check_dimensions context axes = Context.check_dimensions context' axes'.
Proof.
  intros Hdims Haxes. unfold Context.check_dimensions.
  apply Bool.eq_iff_eq_true. rewrite !check_dimensions_spec.
  rewrite (Permutation_length Hdims), (Permutation_length Haxes).
  split; intros [Hlen Hall]; (split; [done|]); intros dim Hdim.
  - rewrite <- Haxes. apply Hall. by rewrite Hdims.
  - rewrite Haxes. apply Hall. by rewrite <- Hdims.
Qed.

(** A context on two axes, and the same context with the axes the other
    way round. *)
Definition two_axes_context (first second : string) : Context.t :=
  {| Context.c_id := "c3";
     Context.entity :=
       {| Entity.identifier := "E1";
          Entity.dimensions :=
            [{| Axis.name := first; Axis.value := "a";
                Axis.dimension_type := EXPLICIT |};
             {| Axis.name := second; Axis.value := "a";
                Axis.dimension_type := EXPLICIT |}] |};
     Context.period := {| Period.instant := true; Period.start_date := None;
                          Period.end_date := mkDate 2022 12 31 |} |}.

Lemma check_dimensions_permutation_witness :
  Context.check_dimensions (two_axes_context "A" "B") ["A"; "B"]
  = Context.check_dimensions (two_axes_context "B" "A") ["B"; "A"].
Proof.
  apply (check_dimensions_permutation (two_axes_context "A" "B")
           (two_axes_context "B" "A") ["A"; "B"] ["B"; "A"]).
  - apply perm_swap.
  - apply perm_swap.
Defined.

(** A child of the root the loop of [parse] reads: it has an id that
    begins with "c" or with "f". *)
Definition is_read (child : Element) : bool :=
  match dict_get (attrib child) "id" with
  | Some id => Str.startswith id "c" || Str.startswith id "f"
  | None => false
  end.

(** X21. The loop of [parse] passes over every child of the root that has
    no id, or an id that begins with neither "c" nor "f" (units, the
    schema reference, footnotes): such children are not read at all, so
    leaving them out of the document, or having them malformed, changes
    neither the dictionaries nor the exception of the loop. *)
Theorem parse_children_skips_others env children st :
  parse_children env (filter (fun child => is_read child = true) children) st
  = parse_children env children st.
Proof.
  revert st. induction children as [|child children IH]; intros st; [done|].
  rewrite filter_cons. cbn [parse_children].
  destruct (decide (is_read child = true)) as [Hr|Hr].
  - cbn [parse_children]. destruct (parse_child env child st); [|done].
    cbn [mbind result_bind]. apply IH.
  - assert (parse_child env child st = Ok st) as ->; [|by cbn].
    unfold parse_child, is_read in *. destruct st as [context_dict fact_dict].
    destruct (dict_get (attrib child) "id") as [id|]; [|done].
    destruct (Str.startswith id "c"); [done|].
    by destruct (Str.startswith id "f").
Qed.
